(** * ModbusKit reference validation servers

    A shallow embedding of the two pymodbus-based reference servers

      - [docker/pymodbus-server/reference_server.py]      (module [Plain])
      - [docker/pymodbus-tls-server/tls_reference_server.py] (module [TLS])

    Python integers are [Z], Python strings are [string], [list] is [list],
    [x | None] is [option x].  The objects of the pymodbus library that the
    servers build are plain records (module [Pymodbus]); what the library,
    the [ssl] module and the operating system answer is read from an
    environment record ([Env]).  Methods that mutate [self], print, or raise
    live in a small state / trace / exception monad ([Proc]). *)

From stdpp Require Import base list strings pretty.
From Stdlib Require Import ZArith Lia.

Open Scope Z_scope.

(** ** Python primitives used by the scripts *)

Module Py.

(** [range(n)] *)
Definition range (n : Z) : list Z := seqZ 0 n.

(** An [int] inside an f-string: [f"{x}"] is [str(x)]. *)
Definition str_int (x : Z) : string := pretty x.

(** An [int | None] inside an f-string; [str(None)] is the word None. *)
Definition str_opt_int (x : option Z) : string :=
  match x with
  | Some n => str_int n
  | None => "None"
  end.

(** Truth value of a [str]: only the empty string is false. *)
Definition truthy_str (s : string) : bool :=
  match s with
  | EmptyString => false
  | String _ _ => true
  end.

(** Truth value of a [str | None]. *)
Definition truthy_opt_str (s : option string) : bool :=
  match s with
  | Some s => truthy_str s
  | None => false
  end.

(** Truth value of an [object | None] whose class defines neither
    [__bool__] nor [__len__]. *)
Definition truthy_obj {A : Type} (o : option A) : bool :=
  match o with
  | Some _ => true
  | None => false
  end.

End Py.

(** ** The world outside the scripts *)

(** The exceptions the scripts can meet. *)
Inductive Exn : Type :=
| ImportError
| FileNotFoundError (path : string)
| SSLError (path : string)
| OSError (address : string * Z)
| TypeError.

(** A Python call either returns or raises. *)
Inductive Res (A : Type) : Type :=
| Ok (a : A)
| Raise (e : Exn).
Arguments Ok {A} _.
Arguments Raise {A} _.

(** A listening socket; [getsockname()] is the pair (host, port). *)
Record Socket : Type := mkSocket {
  getsockname : string * Z;
}.

(** What [server.transport] is once [serve_forever(background=True)] has
    returned, when it is not [None]: an object with or without a [sockets]
    attribute. *)
Inductive Transport : Type :=
| TransportNoSocketsAttr
| TransportSockets (sockets : list Socket).

(** [hasattr(transport, 'sockets')] and [transport.sockets] in one. *)
Definition sockets_attr (t : Transport) : option (list Socket) :=
  match t with
  | TransportNoSocketsAttr => None
  | TransportSockets sockets => Some sockets
  end.

(** What the [ssl] module finds at a path. *)
Inductive FileStatus : Type :=
| Missing
| Malformed
| Pem.

(** Everything the scripts ask of their surroundings. *)
Record Env : Type := mkEnv {
  (** does the guarded [import] block succeed *)
  pymodbus_installed : bool;
  (** [pymodbus.__version__] *)
  pymodbus_version : string;
  (** the certificate, key and CA files on disk *)
  file_status : string -> FileStatus;
  (** [await server.serve_forever(background=True)] for a server bound to
      the given address: it raises, or returns leaving [server.transport]. *)
  serve_forever : string * Z -> Res (option Transport);
}.

(** ** Observable events *)

Inductive Stream : Type :=
| Stdout
| Stderr.

Inductive Signal : Type :=
| SIGTERM
| SIGINT.

(** JSON values as [json.dumps] receives them. *)
Inductive JValue : Type :=
| JNull
| JBool (b : bool)
| JInt (n : Z)
| JStr (s : string).

Definition json_opt_int (x : option Z) : JValue :=
  match x with
  | Some n => JInt n
  | None => JNull
  end.

(** What one [print] call (or the interpreter's report of an uncaught
    exception) writes: a line of text, the dump of a dict in key order, or
    a traceback. *)
Inductive Payload : Type :=
| PText (line : string)
| PJson (obj : list (string * JValue))
| PTraceback (e : Exn).

Inductive Event : Type :=
| EvPrint (file : Stream) (what : Payload) (flush : bool)
| EvAddSignalHandler (sig : Signal)
| EvServeForever (address : string * Z)
| EvShutdownWait
| EvServerShutdown.

Definition Trace : Type := list Event.

(** ** The monads of the embedding *)

#[global] Instance Res_ret : MRet Res := fun A a => Ok a.
#[global] Instance Res_bind : MBind Res := fun A B k m =>
  match m with
  | Ok a => k a
  | Raise e => Raise e
  end.

(** A coroutine or method over a mutable object of type [S]: it appends to
    the trace, leaves the object in a new state, and returns or raises. *)
Definition Proc (S A : Type) : Type := S -> Trace * S * Res A.

#[global] Instance Proc_ret {S : Type} : MRet (Proc S) :=
  fun A a s => ([], s, Ok a).
#[global] Instance Proc_bind {S : Type} : MBind (Proc S) :=
  fun A B k m s =>
    match m s with
    | (t, s', Ok a) =>
        match k a s' with
        | (t', s'', r) => (t ++ t', s'', r)
        end
    | (t, s', Raise e) => (t, s', Raise e)
    end.

Definition emit {S : Type} (e : Event) : Proc S unit :=
  fun s => ([e], s, Ok tt).

Definition get {S : Type} : Proc S S :=
  fun s => ([], s, Ok s).

Definition put {S : Type} (s' : S) : Proc S unit :=
  fun _ => ([], s', Ok tt).

Definition lift_res {S A : Type} (r : Res A) : Proc S A :=
  fun s => ([], s, r).

Definition when {S : Type} (b : bool) (m : Proc S unit) : Proc S unit :=
  if b then m else mret tt.

(** [for x in xs: body(x)] *)
Fixpoint for_each {S X : Type} (xs : list X) (body : X -> Proc S unit)
  : Proc S unit :=
  match xs with
  | [] => mret tt
  | x :: xs' => body x ;; for_each xs' body
  end.

(** [try: body finally: fin] *)
Definition try_finally {S A : Type} (body : Proc S A) (fin : Proc S unit)
  : Proc S A :=
  fun s =>
    match body s with
    | (t, s', r) =>
        match fin s' with
        | (t', s'', Ok _) => (t ++ t', s'', r)
        | (t', s'', Raise e) => (t ++ t', s'', Raise e)
        end
    end.

(** [asyncio.run(coro)] as the last statement of a script: the process
    ends with status 0 when the coroutine returns; when it raises, the
    interpreter writes the traceback to standard error and the status is 1. *)
Definition asyncio_run {S : Type} (r : Trace * S * Res unit) : Trace * Z :=
  match r with
  | (t, _, Ok _) => (t, 0)
  | (t, _, Raise e) => (t ++ [EvPrint Stderr (PTraceback e) false], 1)
  end.

(** The lines a process wrote to one stream, with their flush flags. *)
Fixpoint written (f : Stream) (t : Trace) : list (Payload * bool) :=
  match t with
  | [] => []
  | EvPrint Stdout what fl :: t' =>
      match f with
      | Stdout => (what, fl) :: written f t'
      | Stderr => written f t'
      end
  | EvPrint Stderr what fl :: t' =>
      match f with
      | Stdout => written f t'
      | Stderr => (what, fl) :: written f t'
      end
  | _ :: t' => written f t'
  end.

(** How many times the process shut a server down. *)
Fixpoint shutdowns (t : Trace) : nat :=
  match t with
  | [] => 0%nat
  | EvServerShutdown :: t' => S (shutdowns t')
  | _ :: t' => shutdowns t'
  end.

(** What the process has done by the time it first blocks on the shutdown
    event: the events before the first [EvShutdownWait]. *)
Fixpoint before_wait (t : Trace) : Trace :=
  match t with
  | [] => []
  | EvShutdownWait :: _ => []
  | e :: t' => e :: before_wait t'
  end.

(** Does the process get as far as waiting for the shutdown event. *)
Fixpoint reaches_wait (t : Trace) : bool :=
  match t with
  | [] => false
  | EvShutdownWait :: _ => true
  | _ :: t' => reaches_wait t'
  end.

(** The value a dumped JSON object holds under a key. *)
Fixpoint json_get (obj : list (string * JValue)) (key : string)
  : option JValue :=
  match obj with
  | [] => None
  | (k, v) :: obj' => if String.eqb k key then Some v else json_get obj' key
  end.

(** The port of the first listening socket a transport shows, if it shows
    one: [sockets[0].getsockname()[1]]. *)
Definition first_socket_port (t : option Transport) : option Z :=
  match t with
  | Some (TransportSockets (sock0 :: _)) => Some (snd (getsockname sock0))
  | _ => None
  end.

(** A process that dies at startup: nonzero exit status, something written
    to standard error, nothing written to standard output. *)
Definition startup_failure (r : Trace * Z) : Prop :=
  snd r <> 0 /\ written Stderr (fst r) <> [] /\ written Stdout (fst r) = [].

(** ** The [ssl] module *)

Module Ssl.

Inductive Protocol : Type :=
| PROTOCOL_TLS_SERVER.

Inductive TLSVersion : Type :=
| MINIMUM_SUPPORTED
| TLSv1
| TLSv1_1
| TLSv1_2
| TLSv1_3.

Inductive VerifyMode : Type :=
| CERT_NONE
| CERT_OPTIONAL
| CERT_REQUIRED.

Record SSLContext : Type := mkSSLContext {
  protocol : Protocol;
  minimum_version : TLSVersion;
  cert_chain : option (string * string);
  verify_locations : option string;
  verify_mode : VerifyMode;
}.

(** [ssl.SSLContext(protocol)]: nothing loaded, library defaults. *)
Definition new_SSLContext (p : Protocol) : SSLContext :=
  {| protocol := p;
     minimum_version := MINIMUM_SUPPORTED;
     cert_chain := None;
     verify_locations := None;
     verify_mode := CERT_NONE |}.

Definition set_minimum_version (c : SSLContext) (v : TLSVersion) : SSLContext :=
  {| protocol := protocol c;
     minimum_version := v;
     cert_chain := cert_chain c;
     verify_locations := verify_locations c;
     verify_mode := verify_mode c |}.

Definition set_verify_mode (c : SSLContext) (m : VerifyMode) : SSLContext :=
  {| protocol := protocol c;
     minimum_version := minimum_version c;
     cert_chain := cert_chain c;
     verify_locations := verify_locations c;
     verify_mode := m |}.

(** Reading a PEM file: a missing one raises [FileNotFoundError], an
    unusable one [ssl.SSLError]. *)
Definition read_pem (env : Env) (path : string) : Res unit :=
  match file_status env path with
  | Missing => Raise (FileNotFoundError path)
  | Malformed => Raise (SSLError path)
  | Pem => Ok tt
  end.

(** [context.load_cert_chain(certfile=, keyfile=)] *)
Definition load_cert_chain (env : Env) (c : SSLContext)
    (certfile keyfile : string) : Res SSLContext :=
  read_pem env certfile ;;
  read_pem env keyfile ;;
  mret {| protocol := protocol c;
          minimum_version := minimum_version c;
          cert_chain := Some (certfile, keyfile);
          verify_locations := verify_locations c;
          verify_mode := verify_mode c |}.

(** [context.load_verify_locations(cafile=)]; with neither [cafile] nor
    [capath] nor [cadata] it is a [TypeError]. *)
Definition load_verify_locations (env : Env) (c : SSLContext)
    (cafile : option string) : Res SSLContext :=
  match cafile with
  | Some path =>
      read_pem env path ;;
      mret {| protocol := protocol c;
              minimum_version := minimum_version c;
              cert_chain := cert_chain c;
              verify_locations := Some path;
              verify_mode := verify_mode c |}
  | None => Raise TypeError
  end.

End Ssl.

(** ** The pymodbus objects the servers construct *)

Module Pymodbus.

(** [ModbusSequentialDataBlock(address, values)] *)
Record ModbusSequentialDataBlock (A : Type) : Type := mkBlock {
  address : Z;
  values : list A;
}.
Arguments mkBlock {A} _ _.
Arguments address {A} _.
Arguments values {A} _.

(** [ModbusDeviceContext(co=, di=, hr=, ir=)] *)
Record ModbusDeviceContext : Type := mkDeviceContext {
  co : ModbusSequentialDataBlock bool;
  di : ModbusSequentialDataBlock bool;
  hr : ModbusSequentialDataBlock Z;
  ir : ModbusSequentialDataBlock Z;
}.

(** [ModbusServerContext(devices=, single=)] *)
Record ModbusServerContext : Type := mkServerContext {
  devices : ModbusDeviceContext;
  single : bool;
}.

(** [ModbusDeviceIdentification(info={...})]: the dict literal, in
    insertion order. *)
Record ModbusDeviceIdentification : Type := mkIdentification {
  info : list (Z * string);
}.

(** [d[k]] / [d.get(k)] on such a dict. *)
Fixpoint dict_get (d : list (Z * string)) (k : Z) : option string :=
  match d with
  | [] => None
  | (k', v) :: d' => if k' =? k then Some v else dict_get d' k
  end.

(** [ModbusTcpServer(context=, identity=, address=)], with the
    [transport] attribute the script reads back. *)
Record ModbusTcpServer : Type := mkTcpServer {
  tcp_context : ModbusServerContext;
  tcp_identity : ModbusDeviceIdentification;
  tcp_address : string * Z;
  tcp_transport : option Transport;
}.

(** [ModbusTlsServer(context=, identity=, address=, sslctx=)] *)
Record ModbusTlsServer : Type := mkTlsServer {
  tls_context : ModbusServerContext;
  tls_identity : ModbusDeviceIdentification;
  tls_address : string * Z;
  tls_sslctx : Ssl.SSLContext;
  tls_transport : option Transport;
}.

End Pymodbus.

(** ** The register store contract *)

Module RegisterStore.

Inductive StoreResult (A : Type) : Type :=
| Values (vs : list A)
| IllegalDataAddress.
Arguments Values {A} _.
Arguments IllegalDataAddress {A}.

(** Modelled from the spec: the library's read path is not part of the
    repository.  [read(space, address, quantity)] fails with
    [IllegalDataAddress] if [address < 0] or
    [address + quantity > space.size]; otherwise it is the [quantity]
    values starting at the zero-based [address]. *)
Definition read {A : Type} (space : list A) (address quantity : Z)
  : StoreResult A :=
  if (address <? 0) || (Z.of_nat (length space) <? address + quantity)
  then IllegalDataAddress
  else Values (take (Z.to_nat quantity) (drop (Z.to_nat address) space)).

(** The four read function codes of the PDU table, with address and
    quantity. *)
Inductive ReadRequest : Type :=
| ReadCoils (address quantity : Z)
| ReadDiscreteInputs (address quantity : Z)
| ReadHoldingRegisters (address quantity : Z)
| ReadInputRegisters (address quantity : Z).

Inductive ReadPayload : Type :=
| Bits (r : StoreResult bool)
| Words (r : StoreResult Z).

(** Modelled from the spec: the dispatch of a read request is the
    library's.  FC 0x01 is [Coils.read], 0x02 [DiscreteInputs.read],
    0x03 [HoldingRegisters.read], 0x04 [InputRegisters.read], each on the
    space the device context holds for it. *)
Definition serve_read (ctx : Pymodbus.ModbusServerContext) (rq : ReadRequest)
  : ReadPayload :=
  let store := Pymodbus.devices ctx in
  match rq with
  | ReadCoils a q => Bits (read (Pymodbus.values (Pymodbus.co store)) a q)
  | ReadDiscreteInputs a q => Bits (read (Pymodbus.values (Pymodbus.di store)) a q)
  | ReadHoldingRegisters a q => Words (read (Pymodbus.values (Pymodbus.hr store)) a q)
  | ReadInputRegisters a q => Words (read (Pymodbus.values (Pymodbus.ir store)) a q)
  end.

(** Modelled from the spec: the library's read path is not part of the
    repository.  A block built as [ModbusSequentialDataBlock(address,
    values)] is the densely addressed register space whose first value
    sits at [address]: the value at address [a] is [values[a - address]],
    and no address below [address] or past the last value holds one. *)
Definition block_at {A : Type} (b : Pymodbus.ModbusSequentialDataBlock A)
    (a : Z) : option A :=
  if a <? Pymodbus.address b then None
  else Pymodbus.values b !! Z.to_nat (a - Pymodbus.address b).

(** Modelled from the spec: [read(space, address, quantity)] on such a
    block.  It fails with [IllegalDataAddress] when the range starts
    below the block's first address or ends past its last value;
    otherwise it is the [quantity] values from [address] on. *)
Definition read_block {A : Type} (b : Pymodbus.ModbusSequentialDataBlock A)
    (address quantity : Z) : StoreResult A :=
  if (address <? Pymodbus.address b)
     || (Pymodbus.address b + Z.of_nat (length (Pymodbus.values b))
         <? address + quantity)
  then IllegalDataAddress
  else Values (take (Z.to_nat quantity)
                 (drop (Z.to_nat (address - Pymodbus.address b))
                    (Pymodbus.values b))).

End RegisterStore.

Import Pymodbus.

(** ** [reference_server.py] *)

Module Plain.

(** Address space configuration (matches typical Modbus devices) *)
Definition COIL_COUNT : Z := 1000.
Definition DISCRETE_INPUT_COUNT : Z := 1000.
Definition HOLDING_REGISTER_COUNT : Z := 1000.
Definition INPUT_REGISTER_COUNT : Z := 1000.

(** Device Identification values for FC 0x2B/0x0E testing *)
Definition VENDOR_NAME : string := "ModbusKit".
Definition PRODUCT_CODE : string := "Petro-Rovenskyi".
Definition VENDOR_URL : string := "https://petro.rovenskyi.com".
Definition PRODUCT_NAME : string := "Reference Server".
Definition MODEL_NAME : string := "PyModbus Test Server".
Definition MAJOR_MINOR_REVISION : string := "1.0.0".

(** The attributes of a [ReferenceServer] object. *)
Record ReferenceServer : Type := mkReferenceServer {
  host : string;
  port : Z;
  actual_port : option Z;
  server : option ModbusTcpServer;
}.

Definition __init__ (host : string) (port : Z) : ReferenceServer :=
  {| host := host; port := port; actual_port := None; server := None |}.

(** [self.actual_port = v] *)
Definition set_actual_port (self : ReferenceServer) (v : option Z)
  : ReferenceServer :=
  {| host := host self; port := port self;
     actual_port := v; server := server self |}.

(** [self.server = v] *)
Definition set_server (self : ReferenceServer) (v : option ModbusTcpServer)
  : ReferenceServer :=
  {| host := host self; port := port self;
     actual_port := actual_port self; server := v |}.

(** [self.server.transport], [None] standing for a falsy value. *)
Definition server_transport (self : ReferenceServer) : option Transport :=
  match server self with
  | Some srv => tcp_transport srv
  | None => None
  end.

Definition _create_datastore : ModbusServerContext :=
  let coils := (fun i => i mod 2 =? 0) <$> Py.range COIL_COUNT in
  let discrete_inputs := (fun i => i <? 100) <$> Py.range DISCRETE_INPUT_COUNT in
  let holding_registers := Py.range HOLDING_REGISTER_COUNT in
  let input_registers := (fun i => i * 10) <$> Py.range INPUT_REGISTER_COUNT in
  let store :=
    {| co := mkBlock 0 coils;
       di := mkBlock 0 discrete_inputs;
       hr := mkBlock 0 holding_registers;
       ir := mkBlock 0 input_registers |} in
  {| devices := store; single := true |}.

Definition _create_identity : ModbusDeviceIdentification :=
  {| info := [ (0x00, VENDOR_NAME);
               (0x01, PRODUCT_CODE);
               (0x02, MAJOR_MINOR_REVISION);
               (0x03, VENDOR_URL);
               (0x04, PRODUCT_NAME);
               (0x05, MODEL_NAME) ] |}.

(** The [argparse] namespace. *)
Record Args : Type := mkArgs {
  args_host : string;
  args_port : Z;
  args_verbose : bool;
  args_json : bool;
}.

Section WithEnv.
Context (env : Env).

Definition start : Proc ReferenceServer (option Z) :=
  let context := _create_datastore in
  let identity := _create_identity in
  self ← get;
  put (set_server self
         (Some {| tcp_context := context;
                  tcp_identity := identity;
                  tcp_address := (host self, port self);
                  tcp_transport := None |})) ;;
  (* await self.server.serve_forever(background=True) *)
  emit (EvServeForever (host self, port self)) ;;
  transport ← lift_res (serve_forever env (host self, port self));
  (* the library has left the transport in self.server.transport *)
  self ← get;
  put (set_server self
         (Some {| tcp_context := context;
                  tcp_identity := identity;
                  tcp_address := (host self, port self);
                  tcp_transport := transport |})) ;;
  (* Get actual port from server transport *)
  self ← get;
  match server_transport self with
  | Some transport =>
      match sockets_attr transport with
      | Some sockets =>
          match sockets with
          | sock0 :: _ =>
              put (set_actual_port self (Some (snd (getsockname sock0))))
          | [] => mret tt
          end
      | None => mret tt
      end
  | None => mret tt
  end ;;
  self ← get;
  match actual_port self with
  | None => put (set_actual_port self (Some (port self)))
  | Some _ => mret tt
  end ;;
  self ← get;
  mret (actual_port self).

Definition stop : Proc ReferenceServer unit :=
  self ← get;
  if Py.truthy_obj (server self) then
    emit EvServerShutdown ;;
    self ← get;
    put (set_server self None)
  else mret tt.

(** The coroutine [main], from the loop over the two signals on; the
    object [server] it works on is the state. *)
Definition main_coro (host : string) (port : Z) (verbose : bool)
  : Proc ReferenceServer unit :=
  for_each [SIGTERM; SIGINT] (fun sig => emit (EvAddSignalHandler sig)) ;;
  try_finally
    (actual_port ← start;
     emit (EvPrint Stdout
             (PText ("MODBUS_PORT=" +:+ Py.str_opt_int actual_port)) true) ;;
     when verbose
       (emit (EvPrint Stderr
                (PText ("pymodbus version: " +:+ pymodbus_version env)) false) ;;
        emit (EvPrint Stderr
                (PText ("Server listening on " +:+ host +:+ ":"
                        +:+ Py.str_opt_int actual_port)) false) ;;
        emit (EvPrint Stderr (PText "Press Ctrl+C to stop") false)) ;;
     emit EvShutdownWait)
    (when verbose
       (emit (EvPrint Stderr (PText "Shutting down...") false)) ;;
     stop).

Definition main (host : string) (port : Z) (verbose : bool)
  : Trace * ReferenceServer * Res unit :=
  main_coro host port verbose (__init__ host port).

Definition json_main_coro (args : Args) : Proc ReferenceServer unit :=
  for_each [SIGTERM; SIGINT] (fun sig => emit (EvAddSignalHandler sig)) ;;
  port ← start;
  emit (EvPrint Stdout
          (PJson [ ("host", JStr (args_host args));
                   ("port", json_opt_int port);
                   ("pymodbus_version", JStr (pymodbus_version env));
                   ("status", JStr "running") ]) true) ;;
  emit EvShutdownWait ;;
  stop.

Definition json_main (args : Args) : Trace * ReferenceServer * Res unit :=
  json_main_coro args (__init__ (args_host args) (args_port args)).

(** The script as a process: the guarded imports, then the
    [if __name__ == "__main__"] block.  The result is what the process
    did and its exit status. *)
Definition script (args : Args) : Trace * Z :=
  if negb (pymodbus_installed env) then
    ([EvPrint Stderr
        (PText "ERROR: pymodbus not installed. Run: pip3 install pymodbus>=3.5.0")
        false], 1)
  else if args_json args then asyncio_run (json_main args)
  else asyncio_run (main (args_host args) (args_port args) (args_verbose args)).

End WithEnv.

(** One method call on a server object, whether it returns or raises, in
    whatever surroundings it is made. *)
Inductive step : ReferenceServer -> ReferenceServer -> Prop :=
| step_start (env : Env) (self : ReferenceServer) :
    step self (snd (fst (start env self)))
| step_stop (self : ReferenceServer) :
    step self (snd (fst (stop self))).

(** The states a server object goes through after its construction. *)
Inductive reachable (host : string) (port : Z) : ReferenceServer -> Prop :=
| reach_init : reachable host port (__init__ host port)
| reach_step (self self' : ReferenceServer) :
    reachable host port self -> step self self' -> reachable host port self'.

End Plain.

(** ** [tls_reference_server.py] *)

Module TLS.

(** Address space configuration (same as TCP reference server) *)
Definition COIL_COUNT : Z := 1000.
Definition DISCRETE_INPUT_COUNT : Z := 1000.
Definition HOLDING_REGISTER_COUNT : Z := 1000.
Definition INPUT_REGISTER_COUNT : Z := 1000.

(** Device Identification values *)
Definition VENDOR_NAME : string := "ModbusKit".
Definition PRODUCT_CODE : string := "Petro-Rovenskyi".
Definition VENDOR_URL : string := "https://petro.rovenskyi.com".
Definition PRODUCT_NAME : string := "TLS Reference Server".
Definition MODEL_NAME : string := "PyModbus TLS Test Server".
Definition MAJOR_MINOR_REVISION : string := "1.0.0".

(** The attributes of a [TLSReferenceServer] object. *)
Record TLSReferenceServer : Type := mkTLSReferenceServer {
  host : string;
  port : Z;
  certfile : string;
  keyfile : string;
  cafile : option string;
  actual_port : option Z;
  server : option ModbusTlsServer;
}.

Definition __init__ (host : string) (port : Z) (certfile keyfile : string)
    (cafile : option string) : TLSReferenceServer :=
  {| host := host; port := port;
     certfile := certfile; keyfile := keyfile; cafile := cafile;
     actual_port := None; server := None |}.

(** [self.actual_port = v] *)
Definition set_actual_port (self : TLSReferenceServer) (v : option Z)
  : TLSReferenceServer :=
  {| host := host self; port := port self;
     certfile := certfile self; keyfile := keyfile self;
     cafile := cafile self;
     actual_port := v; server := server self |}.

(** [self.server = v] *)
Definition set_server (self : TLSReferenceServer) (v : option ModbusTlsServer)
  : TLSReferenceServer :=
  {| host := host self; port := port self;
     certfile := certfile self; keyfile := keyfile self;
     cafile := cafile self;
     actual_port := actual_port self; server := v |}.

(** [self.server.transport], [None] standing for a falsy value. *)
Definition server_transport (self : TLSReferenceServer) : option Transport :=
  match server self with
  | Some srv => tls_transport srv
  | None => None
  end.

Definition _create_datastore : ModbusServerContext :=
  let coils := (fun i => i mod 2 =? 0) <$> Py.range COIL_COUNT in
  let discrete_inputs := (fun i => i <? 100) <$> Py.range DISCRETE_INPUT_COUNT in
  let holding_registers := Py.range HOLDING_REGISTER_COUNT in
  let input_registers := (fun i => i * 10) <$> Py.range INPUT_REGISTER_COUNT in
  let store :=
    {| co := mkBlock 0 coils;
       di := mkBlock 0 discrete_inputs;
       hr := mkBlock 0 holding_registers;
       ir := mkBlock 0 input_registers |} in
  {| devices := store; single := true |}.

Definition _create_identity : ModbusDeviceIdentification :=
  {| info := [ (0x00, VENDOR_NAME);
               (0x01, PRODUCT_CODE);
               (0x02, MAJOR_MINOR_REVISION);
               (0x03, VENDOR_URL);
               (0x04, PRODUCT_NAME);
               (0x05, MODEL_NAME) ] |}.

(** The [argparse] namespace. *)
Record Args : Type := mkArgs {
  args_host : string;
  args_port : Z;
  args_certfile : string;
  args_keyfile : string;
  args_cafile : option string;
  args_verbose : bool;
  args_json : bool;
}.

Section WithEnv.
Context (env : Env).

Definition _create_ssl_context (self : TLSReferenceServer)
  : Res Ssl.SSLContext :=
  let context := Ssl.new_SSLContext Ssl.PROTOCOL_TLS_SERVER in
  (* Minimum TLS 1.2 per Modbus/TCP Security spec *)
  let context := Ssl.set_minimum_version context Ssl.TLSv1_2 in
  (* Load server certificate and key *)
  context ← Ssl.load_cert_chain env context (certfile self) (keyfile self);
  (* Optional: Load CA for client certificate verification (mTLS) *)
  if Py.truthy_opt_str (cafile self) then
    context ← Ssl.load_verify_locations env context (cafile self);
    mret (Ssl.set_verify_mode context Ssl.CERT_OPTIONAL)
  else mret (Ssl.set_verify_mode context Ssl.CERT_NONE).

Definition start : Proc TLSReferenceServer (option Z) :=
  let context := _create_datastore in
  let identity := _create_identity in
  self ← get;
  sslctx ← lift_res (_create_ssl_context self);
  put (set_server self
         (Some {| tls_context := context;
                  tls_identity := identity;
                  tls_address := (host self, port self);
                  tls_sslctx := sslctx;
                  tls_transport := None |})) ;;
  (* await self.server.serve_forever(background=True) *)
  emit (EvServeForever (host self, port self)) ;;
  transport ← lift_res (serve_forever env (host self, port self));
  (* the library has left the transport in self.server.transport *)
  self ← get;
  put (set_server self
         (Some {| tls_context := context;
                  tls_identity := identity;
                  tls_address := (host self, port self);
                  tls_sslctx := sslctx;
                  tls_transport := transport |})) ;;
  (* Get actual port from server transport *)
  self ← get;
  match server_transport self with
  | Some transport =>
      match sockets_attr transport with
      | Some sockets =>
          match sockets with
          | sock0 :: _ =>
              put (set_actual_port self (Some (snd (getsockname sock0))))
          | [] => mret tt
          end
      | None => mret tt
      end
  | None => mret tt
  end ;;
  self ← get;
  match actual_port self with
  | None => put (set_actual_port self (Some (port self)))
  | Some _ => mret tt
  end ;;
  self ← get;
  mret (actual_port self).

Definition stop : Proc TLSReferenceServer unit :=
  self ← get;
  if Py.truthy_obj (server self) then
    emit EvServerShutdown ;;
    self ← get;
    put (set_server self None)
  else mret tt.

(** The coroutine [main], from the loop over the two signals on; the
    object [server] it works on is the state. *)
Definition main_coro (host : string) (port : Z) (certfile : string)
    (verbose : bool) : Proc TLSReferenceServer unit :=
  for_each [SIGTERM; SIGINT] (fun sig => emit (EvAddSignalHandler sig)) ;;
  try_finally
    (actual_port ← start;
     emit (EvPrint Stdout
             (PText ("MODBUS_TLS_PORT=" +:+ Py.str_opt_int actual_port)) true) ;;
     when verbose
       (emit (EvPrint Stderr
                (PText ("pymodbus version: " +:+ pymodbus_version env)) false) ;;
        emit (EvPrint Stderr
                (PText ("TLS Server listening on " +:+ host +:+ ":"
                        +:+ Py.str_opt_int actual_port)) false) ;;
        emit (EvPrint Stderr (PText ("Certificate: " +:+ certfile)) false) ;;
        emit (EvPrint Stderr (PText "Press Ctrl+C to stop") false)) ;;
     emit EvShutdownWait)
    (when verbose
       (emit (EvPrint Stderr (PText "Shutting down...") false)) ;;
     stop).

Definition main (host : string) (port : Z) (certfile keyfile : string)
    (cafile : option string) (verbose : bool)
  : Trace * TLSReferenceServer * Res unit :=
  main_coro host port certfile verbose
    (__init__ host port certfile keyfile cafile).

Definition json_main_coro (args : Args) : Proc TLSReferenceServer unit :=
  for_each [SIGTERM; SIGINT] (fun sig => emit (EvAddSignalHandler sig)) ;;
  port ← start;
  emit (EvPrint Stdout
          (PJson [ ("host", JStr (args_host args));
                   ("port", json_opt_int port);
                   ("tls", JBool true);
                   ("certfile", JStr (args_certfile args));
                   ("pymodbus_version", JStr (pymodbus_version env));
                   ("status", JStr "running") ]) true) ;;
  emit EvShutdownWait ;;
  stop.

Definition json_main (args : Args) : Trace * TLSReferenceServer * Res unit :=
  json_main_coro args
    (__init__ (args_host args) (args_port args) (args_certfile args)
       (args_keyfile args) (args_cafile args)).

(** The script as a process: the guarded imports, then the
    [if __name__ == "__main__"] block. *)
Definition script (args : Args) : Trace * Z :=
  if negb (pymodbus_installed env) then
    ([EvPrint Stderr
        (PText "ERROR: pymodbus not installed. Run: pip3 install pymodbus>=3.5.0")
        false], 1)
  else if args_json args then asyncio_run (json_main args)
  else asyncio_run
         (main (args_host args) (args_port args) (args_certfile args)
            (args_keyfile args) (args_cafile args) (args_verbose args)).

End WithEnv.

(** One method call on a server object, whether it returns or raises, in
    whatever surroundings it is made. *)
Inductive step : TLSReferenceServer -> TLSReferenceServer -> Prop :=
| step_start (env : Env) (self : TLSReferenceServer) :
    step self (snd (fst (start env self)))
| step_stop (self : TLSReferenceServer) :
    step self (snd (fst (stop self))).

(** The states a server object goes through after its construction. *)
Inductive reachable (host : string) (port : Z) (certfile keyfile : string)
    (cafile : option string) : TLSReferenceServer -> Prop :=
| reach_init :
    reachable host port certfile keyfile cafile
      (__init__ host port certfile keyfile cafile)
| reach_step (self self' : TLSReferenceServer) :
    reachable host port certfile keyfile cafile self ->
    step self self' ->
    reachable host port certfile keyfile cafile self'.

End TLS.

(** ** Sample surroundings, used to run the scripts on concrete inputs *)

(** pymodbus is installed, the files under [certs/] are good PEM files, and
    the server ends up listening on one socket bound to port 50123. *)
Definition env_listening : Env :=
  {| pymodbus_installed := true;
     pymodbus_version := "3.11.0";
     file_status := fun path =>
       if String.prefix "certs/" path then Pem else Missing;
     serve_forever := fun '(h, _) =>
       Ok (Some (TransportSockets [ {| getsockname := (h, 50123) |} ])) |}.

(** As [env_listening], but the transport shows no socket to query. *)
Definition env_no_sockets : Env :=
  {| pymodbus_installed := true;
     pymodbus_version := "3.11.0";
     file_status := fun path =>
       if String.prefix "certs/" path then Pem else Missing;
     serve_forever := fun _ => Ok (Some (TransportSockets [])) |}.

(** pymodbus is installed but no certificate or key file exists. *)
Definition env_no_certs : Env :=
  {| pymodbus_installed := true;
     pymodbus_version := "3.11.0";
     file_status := fun _ => Missing;
     serve_forever := fun '(h, _) =>
       Ok (Some (TransportSockets [ {| getsockname := (h, 50123) |} ])) |}.

(** pymodbus is installed and the certificates are good, but the address
    cannot be bound: [serve_forever] raises [OSError]. *)
Definition env_port_in_use : Env :=
  {| pymodbus_installed := true;
     pymodbus_version := "3.11.0";
     file_status := fun path =>
       if String.prefix "certs/" path then Pem else Missing;
     serve_forever := fun a => Raise (OSError a) |}.

(** pymodbus is not installed. *)
Definition env_no_pymodbus : Env :=
  {| pymodbus_installed := false;
     pymodbus_version := EmptyString;
     file_status := fun _ => Missing;
     serve_forever := fun a => Raise (OSError a) |}.

Definition plain_default_args : Plain.Args :=
  {| Plain.args_host := "127.0.0.1";
     Plain.args_port := 0;
     Plain.args_verbose := false;
     Plain.args_json := false |}.

Definition tls_default_args : TLS.Args :=
  {| TLS.args_host := "0.0.0.0";
     TLS.args_port := 802;
     TLS.args_certfile := "certs/server.crt";
     TLS.args_keyfile := "certs/server.key";
     TLS.args_cafile := None;
     TLS.args_verbose := false;
     TLS.args_json := false |}.

(** [--json] on the command line, the rest as by default. *)
Definition plain_json_args : Plain.Args :=
  {| Plain.args_host := "127.0.0.1";
     Plain.args_port := 0;
     Plain.args_verbose := false;
     Plain.args_json := true |}.

Definition tls_json_args : TLS.Args :=
  {| TLS.args_host := "0.0.0.0";
     TLS.args_port := 802;
     TLS.args_certfile := "certs/server.crt";
     TLS.args_keyfile := "certs/server.key";
     TLS.args_cafile := None;
     TLS.args_verbose := false;
     TLS.args_json := true |}.

(** [-v --cafile certs/ca.crt] on the command line of the TLS script. *)
Definition tls_mtls_args : TLS.Args :=
  {| TLS.args_host := "0.0.0.0";
     TLS.args_port := 802;
     TLS.args_certfile := "certs/server.crt";
     TLS.args_keyfile := "certs/server.key";
     TLS.args_cafile := Some "certs/ca.crt";
     TLS.args_verbose := true;
     TLS.args_json := false |}.

(** ** The guarded imports at the top of each script *)

Module Imports.

(** Which names the installed packages offer: [avail m n] when
    [from m import n] finds module [m] and the name [n] in it. *)
Definition Importable : Type := string -> string -> bool.

(** [from modname import name]; a missing module or a missing name is an
    [ImportError]. *)
Definition from_import (avail : Importable) (modname name : string)
  : Res unit :=
  if avail modname name then Ok tt else Raise ImportError.

(** [try: body except ImportError: handler] *)
Definition try_except_ImportError {A : Type} (body handler : Res A) : Res A :=
  match body with
  | Raise ImportError => handler
  | _ => body
  end.

(** What the script's names end up bound to: the class behind the name
    [ModbusDeviceContext], and the module [ModbusDeviceIdentification]
    came from. *)
Record Bound : Type := mkBound {
  device_context_class : string;
  identification_module : string;
}.

(** The body of the outer [try], for the script whose server class is
    [server_class] ([ModbusTcpServer] or [ModbusTlsServer]). *)
Definition import_block (server_class : string) (avail : Importable)
  : Res Bound :=
  from_import avail "pymodbus.datastore" "ModbusSequentialDataBlock" ;;
  from_import avail "pymodbus.datastore" "ModbusServerContext" ;;
  (* pymodbus 3.7+ renamed ModbusSlaveContext to ModbusDeviceContext *)
  device_context ←
    try_except_ImportError
      (from_import avail "pymodbus.datastore" "ModbusDeviceContext" ;;
       mret "ModbusDeviceContext")
      (from_import avail "pymodbus.datastore" "ModbusSlaveContext" ;;
       mret "ModbusSlaveContext");
  from_import avail "pymodbus.server" server_class ;;
  (* pymodbus 3.11+ moved ModbusDeviceIdentification to top-level *)
  identification ←
    try_except_ImportError
      (from_import avail "pymodbus" "ModbusDeviceIdentification" ;;
       mret "pymodbus")
      (from_import avail "pymodbus.device" "ModbusDeviceIdentification" ;;
       mret "pymodbus.device");
  from_import avail "pymodbus" "__version__" ;;
  mret {| device_context_class := device_context;
          identification_module := identification |}.

(** The whole guarded block: [except ImportError] prints the error line
    to standard error and calls [sys.exit(1)]; otherwise the script goes
    on ([None] for no exit). *)
Definition guarded_imports (server_class : string) (avail : Importable)
  : Trace * option Z :=
  match import_block server_class avail with
  | Raise ImportError =>
      ([EvPrint Stderr
          (PText "ERROR: pymodbus not installed. Run: pip3 install pymodbus>=3.5.0")
          false], Some 1)
  | _ => ([], None)
  end.

End Imports.

(** ** Reading traces and varying arguments *)

(** The addresses the process tried to serve on, in order. *)
Fixpoint binds (t : Trace) : list (string * Z) :=
  match t with
  | [] => []
  | EvServeForever a :: t' => a :: binds t'
  | _ :: t' => binds t'
  end.

(** The signals the process installed a handler for, in order. *)
Fixpoint handlers (t : Trace) : list Signal :=
  match t with
  | [] => []
  | EvAddSignalHandler sig :: t' => sig :: handlers t'
  | _ :: t' => handlers t'
  end.

(** What the process has done before it first tries to serve. *)
Fixpoint before_bind (t : Trace) : Trace :=
  match t with
  | [] => []
  | EvServeForever _ :: _ => []
  | e :: t' => e :: before_bind t'
  end.

(** The trace without what went to standard error. *)
Fixpoint without_stderr (t : Trace) : Trace :=
  match t with
  | [] => []
  | EvPrint Stderr _ _ :: t' => without_stderr t'
  | e :: t' => e :: without_stderr t'
  end.

(** The same command line with [-v] and [--json] given or not. *)
Definition plain_args_with (args : Plain.Args) (verbose json : bool)
  : Plain.Args :=
  {| Plain.args_host := Plain.args_host args;
     Plain.args_port := Plain.args_port args;
     Plain.args_verbose := verbose;
     Plain.args_json := json |}.

Definition tls_args_with (args : TLS.Args) (verbose json : bool)
  : TLS.Args :=
  {| TLS.args_host := TLS.args_host args;
     TLS.args_port := TLS.args_port args;
     TLS.args_certfile := TLS.args_certfile args;
     TLS.args_keyfile := TLS.args_keyfile args;
     TLS.args_cafile := TLS.args_cafile args;
     TLS.args_verbose := verbose;
     TLS.args_json := json |}.

(** The server object a TLS command line constructs. *)
Definition tls_server_of (args : TLS.Args) : TLS.TLSReferenceServer :=
  TLS.__init__ (TLS.args_host args) (TLS.args_port args)
    (TLS.args_certfile args) (TLS.args_keyfile args) (TLS.args_cafile args).

(** Packages as pymodbus 3.11 has them, and as a release before the
    renamings had them. *)
Definition pymodbus_3_11 : Imports.Importable := fun m n =>
  match m, n with
  | "pymodbus.datastore", "ModbusSequentialDataBlock" => true
  | "pymodbus.datastore", "ModbusServerContext" => true
  | "pymodbus.datastore", "ModbusDeviceContext" => true
  | "pymodbus.server", "ModbusTcpServer" => true
  | "pymodbus.server", "ModbusTlsServer" => true
  | "pymodbus", "ModbusDeviceIdentification" => true
  | "pymodbus", "__version__" => true
  | _, _ => false
  end.

Definition pymodbus_3_6 : Imports.Importable := fun m n =>
  match m, n with
  | "pymodbus.datastore", "ModbusSequentialDataBlock" => true
  | "pymodbus.datastore", "ModbusServerContext" => true
  | "pymodbus.datastore", "ModbusSlaveContext" => true
  | "pymodbus.server", "ModbusTcpServer" => true
  | "pymodbus.server", "ModbusTlsServer" => true
  | "pymodbus.device", "ModbusDeviceIdentification" => true
  | "pymodbus", "__version__" => true
  | _, _ => false
  end.

(** The surroundings of [env_listening] with a CA file that is absent. *)
Definition env_no_ca : Env :=
  {| pymodbus_installed := true;
     pymodbus_version := "3.11.0";
     file_status := fun path =>
       if String.eqb path "certs/ca.crt" then Missing
       else if String.prefix "certs/" path then Pem else Missing;
     serve_forever := fun '(h, _) =>
       Ok (Some (TransportSockets [ {| getsockname := (h, 50123) |} ])) |}.

(** * Properties *)

Import RegisterStore.

(** ** Seeding of the datastore *)

Lemma range_length (n : Z) : length (Py.range n) = Z.to_nat n.
Proof. unfold Py.range. apply length_seqZ. Qed.

Lemma range_lookup (n i : Z) :
  0 <= i < n -> Py.range n !! Z.to_nat i = Some i.
Proof.
  intros Hi. unfold Py.range.
  rewrite lookup_seqZ_lt by lia.
  f_equal. lia.
Qed.

Lemma range_fmap_lookup {A : Type} (f : Z -> A) (n i : Z) :
  0 <= i < n -> (f <$> Py.range n) !! Z.to_nat i = Some (f i).
Proof.
  intros Hi. rewrite list_lookup_fmap, range_lookup by assumption.
  reflexivity.
Qed.

Lemma plain_seeding (i : Z) :
  0 <= i < 1000 ->
  let store := devices Plain._create_datastore in
  values (co store) !! Z.to_nat i = Some (i mod 2 =? 0) /\
  values (di store) !! Z.to_nat i = Some (i <? 100) /\
  values (hr store) !! Z.to_nat i = Some i /\
  values (ir store) !! Z.to_nat i = Some (i * 10).
Proof.
  intros Hi. cbn [Plain._create_datastore devices co di hr ir values].
  unfold Plain.COIL_COUNT, Plain.DISCRETE_INPUT_COUNT,
    Plain.HOLDING_REGISTER_COUNT, Plain.INPUT_REGISTER_COUNT.
  repeat split.
  - apply (range_fmap_lookup (fun i => i mod 2 =? 0)); exact Hi.
  - apply (range_fmap_lookup (fun i => i <? 100)); exact Hi.
  - apply range_lookup; exact Hi.
  - apply (range_fmap_lookup (fun i => i * 10)); exact Hi.
Qed.

Lemma plain_sizes :
  let store := devices Plain._create_datastore in
  length (values (co store)) = 1000%nat /\
  length (values (di store)) = 1000%nat /\
  length (values (hr store)) = 1000%nat /\
  length (values (ir store)) = 1000%nat.
Proof.
  cbn [Plain._create_datastore devices co di hr ir values].
  rewrite !length_fmap, !range_length.
  repeat split; reflexivity.
Qed.

Lemma datastores_equal : TLS._create_datastore = Plain._create_datastore.
Proof.
  unfold TLS._create_datastore, Plain._create_datastore.
  unfold TLS.COIL_COUNT, TLS.DISCRETE_INPUT_COUNT,
    TLS.HOLDING_REGISTER_COUNT, TLS.INPUT_REGISTER_COUNT.
  unfold Plain.COIL_COUNT, Plain.DISCRETE_INPUT_COUNT,
    Plain.HOLDING_REGISTER_COUNT, Plain.INPUT_REGISTER_COUNT.
  reflexivity.
Qed.

Lemma plain_reference_reads :
  let store := devices Plain._create_datastore in
  read (values (hr store)) 0 5 = Values [0; 1; 2; 3; 4] /\
  read (values (ir store)) 0 5 = Values [0; 10; 20; 30; 40] /\
  read (values (co store)) 0 4 = Values [true; false; true; false] /\
  read (values (di store)) 99 2 = Values [true; false].
Proof. repeat split; vm_compute; reflexivity. Qed.

Lemma plain_block_addresses :
  let store := devices Plain._create_datastore in
  address (co store) = 0 /\ address (di store) = 0 /\
  address (hr store) = 0 /\ address (ir store) = 0.
Proof. repeat split. Qed.

Lemma block_at_zero_based {A : Type} (b : ModbusSequentialDataBlock A)
    (a : Z) :
  address b = 0 -> 0 <= a -> block_at b a = values b !! Z.to_nat a.
Proof.
  intros Hzero Ha. unfold block_at. rewrite Hzero.
  destruct (Z.ltb_spec a 0) as [Hlt | _]; [lia|].
  rewrite Z.sub_0_r. reflexivity.
Qed.

Lemma block_at_outside {A : Type} (b : ModbusSequentialDataBlock A)
    (n a : Z) :
  address b = 0 -> length (values b) = Z.to_nat n -> 0 <= n ->
  ~ (0 <= a < n) -> block_at b a = None.
Proof.
  intros Hzero Hlen Hn Hout. unfold block_at. rewrite Hzero.
  destruct (Z.ltb_spec a 0) as [Hlt | Hge]; [reflexivity|].
  apply lookup_ge_None. rewrite Hlen. lia.
Qed.

Lemma plain_reference_block_reads :
  let store := devices Plain._create_datastore in
  read_block (hr store) 0 5 = Values [0; 1; 2; 3; 4] /\
  read_block (ir store) 0 5 = Values [0; 10; 20; 30; 40] /\
  read_block (co store) 0 4 = Values [true; false; true; false] /\
  read_block (di store) 99 2 = Values [true; false].
Proof. repeat split; vm_compute; reflexivity. Qed.

(** C1: in both servers each of the four blocks of the seeded datastore
    starts at address 0 and follows the reference policy at every address
    [i] of [0, 1000): the coil at [i] is [i % 2 == 0], the discrete input
    is [i < 100], the holding register is [i], the input register is
    [i * 10]; no address outside [0, 1000) holds a value; and the four
    reference reads of the seeded store, taken at the blocks' own
    addresses, give [0,1,2,3,4], [0,10,20,30,40],
    [true,false,true,false] and [true,false]. *)
Theorem datastore_seeding_reference_policy (i : Z) :
  0 <= i < 1000 ->
  forall store : ModbusDeviceContext,
    store = devices Plain._create_datastore \/
    store = devices TLS._create_datastore ->
    (block_at (co store) i = Some (i mod 2 =? 0) /\
     block_at (di store) i = Some (i <? 100) /\
     block_at (hr store) i = Some i /\
     block_at (ir store) i = Some (i * 10)) /\
    (forall j : Z,
       ~ (0 <= j < 1000) ->
       block_at (co store) j = None /\
       block_at (di store) j = None /\
       block_at (hr store) j = None /\
       block_at (ir store) j = None) /\
    (read_block (hr store) 0 5 = Values [0; 1; 2; 3; 4] /\
     read_block (ir store) 0 5 = Values [0; 10; 20; 30; 40] /\
     read_block (co store) 0 4 = Values [true; false; true; false] /\
     read_block (di store) 99 2 = Values [true; false]).
Proof.
  intros Hi store Hstore.
  assert (store = devices Plain._create_datastore) as ->.
  { destruct Hstore as [-> | ->]; [reflexivity|].
    rewrite datastores_equal. reflexivity. }
  destruct plain_block_addresses as (Aco & Adi & Ahr & Air).
  destruct plain_sizes as (Lco & Ldi & Lhr & Lir).
  split; [|split; [|exact plain_reference_block_reads]].
  - rewrite !block_at_zero_based by (assumption || lia).
    exact (plain_seeding i Hi).
  - intros j Hj.
    rewrite (block_at_outside (co _) 1000), (block_at_outside (di _) 1000),
      (block_at_outside (hr _) 1000), (block_at_outside (ir _) 1000)
      by (assumption || lia).
    repeat split.
Qed.

(** The policy at the last address of the plaintext server's store. *)
Lemma datastore_seeding_at_999 :
  let store := devices Plain._create_datastore in
  block_at (co store) 999 = Some false /\
  block_at (di store) 999 = Some false /\
  block_at (hr store) 999 = Some 999 /\
  block_at (ir store) 999 = Some 9990.
Proof.
  exact (proj1 (datastore_seeding_reference_policy 999 ltac:(lia)
                  (devices Plain._create_datastore) (or_introl eq_refl))).
Defined.

(** ** The two servers build the same store *)

(** C4: the TLS server's seeding function builds the same server context
    as the plaintext server's: each of the four spaces has the same size
    and the same value at every address, so every read request gets the
    same payload from either store. *)
Theorem tls_datastore_same_as_plain :
  TLS._create_datastore = Plain._create_datastore /\
  (let t := devices TLS._create_datastore in
   let p := devices Plain._create_datastore in
   (length (values (co t)) = length (values (co p)) /\
    length (values (di t)) = length (values (di p)) /\
    length (values (hr t)) = length (values (hr p)) /\
    length (values (ir t)) = length (values (ir p))) /\
   (forall a : nat,
      values (co t) !! a = values (co p) !! a /\
      values (di t) !! a = values (di p) !! a /\
      values (hr t) !! a = values (hr p) !! a /\
      values (ir t) !! a = values (ir p) !! a)) /\
  (forall rq : ReadRequest,
     serve_read TLS._create_datastore rq =
     serve_read Plain._create_datastore rq).
Proof.
  split; [exact datastores_equal|].
  split.
  - cbv zeta. rewrite datastores_equal.
    split; [repeat split|]. intros a. repeat split.
  - intros rq. rewrite datastores_equal. reflexivity.
Qed.

(** ** What [start] and [stop] do to a server object *)

Lemma plain_start_eq (env : Env) (self : Plain.ReferenceServer) :
  Plain.start env self =
  let addr := (Plain.host self, Plain.port self) in
  let srv tr :=
    {| tcp_context := Plain._create_datastore;
       tcp_identity := Plain._create_identity;
       tcp_address := addr;
       tcp_transport := tr |} in
  match serve_forever env addr with
  | Raise e =>
      ([EvServeForever addr], Plain.set_server self (Some (srv None)), Raise e)
  | Ok tr =>
      let p :=
        match first_socket_port tr with
        | Some q => q
        | None =>
            match Plain.actual_port self with
            | Some a => a
            | None => Plain.port self
            end
        end in
      ([EvServeForever addr],
       {| Plain.host := Plain.host self; Plain.port := Plain.port self;
          Plain.actual_port := Some p; Plain.server := Some (srv tr) |},
       Ok (Some p))
  end.
Proof.
  destruct self as [h p a s].
  unfold Plain.start, mbind, Proc_bind, get, put, emit, lift_res.
  cbn [Plain.set_server Plain.host Plain.port Plain.actual_port Plain.server].
  destruct (serve_forever env (h, p)) as [tr|e]; [|reflexivity].
  destruct tr as [[|[|sock0 socks]]|], a; reflexivity.
Qed.

Lemma tls_start_eq (env : Env) (self : TLS.TLSReferenceServer) :
  TLS.start env self =
  let addr := (TLS.host self, TLS.port self) in
  match TLS._create_ssl_context env self with
  | Raise e => ([], self, Raise e)
  | Ok sslctx =>
      let srv tr :=
        {| tls_context := TLS._create_datastore;
           tls_identity := TLS._create_identity;
           tls_address := addr;
           tls_sslctx := sslctx;
           tls_transport := tr |} in
      match serve_forever env addr with
      | Raise e =>
          ([EvServeForever addr], TLS.set_server self (Some (srv None)), Raise e)
      | Ok tr =>
          let p :=
            match first_socket_port tr with
            | Some q => q
            | None =>
                match TLS.actual_port self with
                | Some a => a
                | None => TLS.port self
                end
            end in
          ([EvServeForever addr],
           {| TLS.host := TLS.host self; TLS.port := TLS.port self;
              TLS.certfile := TLS.certfile self;
              TLS.keyfile := TLS.keyfile self;
              TLS.cafile := TLS.cafile self;
              TLS.actual_port := Some p; TLS.server := Some (srv tr) |},
           Ok (Some p))
      end
  end.
Proof.
  unfold TLS.start, mbind, Proc_bind, get, put, emit, lift_res. cbv zeta.
  destruct (TLS._create_ssl_context env self) as [sslctx|e]; [|reflexivity].
  destruct self as [h p cf kf ca a s].
  cbn [TLS.set_server TLS.host TLS.port TLS.actual_port TLS.server
       TLS.certfile TLS.keyfile TLS.cafile].
  destruct (serve_forever env (h, p)) as [tr|e]; [|reflexivity].
  destruct tr as [[|[|sock0 socks]]|], a; reflexivity.
Qed.

Lemma plain_stop_eq (self : Plain.ReferenceServer) :
  Plain.stop self =
  match Plain.server self with
  | Some _ => ([EvServerShutdown], Plain.set_server self None, Ok tt)
  | None => ([], self, Ok tt)
  end.
Proof.
  unfold Plain.stop, mbind, Proc_bind, get, put, emit.
  destruct (Plain.server self); reflexivity.
Qed.

Lemma tls_stop_eq (self : TLS.TLSReferenceServer) :
  TLS.stop self =
  match TLS.server self with
  | Some _ => ([EvServerShutdown], TLS.set_server self None, Ok tt)
  | None => ([], self, Ok tt)
  end.
Proof.
  unfold TLS.stop, mbind, Proc_bind, get, put, emit.
  destruct (TLS.server self); reflexivity.
Qed.

(** C9, as the code has it: a call to [start()] that completes never
    returns [None]: it returns the value then stored in [actual_port],
    which is the port of the first socket the transport shows; when the
    transport shows no socket to query, it is the port an earlier
    [start()] had stored in [actual_port], if there is one, and the
    requested port unchanged otherwise (as on every object the scripts
    construct).  Both servers. *)
Theorem start_never_returns_none :
  (forall (env : Env) (self self' : Plain.ReferenceServer) (t : Trace)
          (r : option Z),
     Plain.start env self = (t, self', Ok r) ->
     exists p : Z,
       r = Some p /\ Plain.actual_port self' = Some p /\
       p = match first_socket_port (Plain.server_transport self') with
           | Some q => q
           | None =>
               match Plain.actual_port self with
               | Some stored => stored
               | None => Plain.port self
               end
           end) /\
  (forall (env : Env) (self self' : TLS.TLSReferenceServer) (t : Trace)
          (r : option Z),
     TLS.start env self = (t, self', Ok r) ->
     exists p : Z,
       r = Some p /\ TLS.actual_port self' = Some p /\
       p = match first_socket_port (TLS.server_transport self') with
           | Some q => q
           | None =>
               match TLS.actual_port self with
               | Some stored => stored
               | None => TLS.port self
               end
           end).
Proof.
  split.
  - intros env self self' t r Hstart.
    rewrite plain_start_eq in Hstart. cbv zeta in Hstart.
    destruct (serve_forever env _) as [tr|e]; [|discriminate Hstart].
    injection Hstart as <- <- <-.
    eexists; split; [reflexivity|]. split; reflexivity.
  - intros env self self' t r Hstart.
    rewrite tls_start_eq in Hstart. cbv zeta in Hstart.
    destruct (TLS._create_ssl_context env self) as [sslctx|e];
      [|discriminate Hstart].
    destruct (serve_forever env _) as [tr|e]; [|discriminate Hstart].
    injection Hstart as <- <- <-.
    eexists; split; [reflexivity|]. split; reflexivity.
Qed.

(** On a fresh plaintext server asked for port 0 whose transport shows no
    socket, [start()] completes and returns 0. *)
Lemma start_falls_back_to_requested_port :
  let self := Plain.__init__ "127.0.0.1" 0 in
  let self' := (Plain.start env_no_sockets self).1.2 in
  Plain.start env_no_sockets self
    = ([EvServeForever ("127.0.0.1", 0)], self', Ok (Some 0)) /\
  exists p : Z,
    Some 0 = Some p /\ Plain.actual_port self' = Some p /\ p = 0.
Proof.
  cbv zeta. split; [reflexivity|].
  destruct (proj1 start_never_returns_none env_no_sockets
              (Plain.__init__ "127.0.0.1" 0) _ _ _ eq_refl)
    as (p & Hr & Hactual & Hresolved).
  exists p. split; [exact Hr|]. split; [exact Hactual|].
  exact Hresolved.
Defined.

(** A plaintext server object constructed for port 0, started where it
    listens on 50123 and stopped: a second [start()] completes where the
    transport shows no socket to query, and returns the stored 50123, not
    the requested port 0. *)
Lemma restarted_start_returns_stored_port :
  let s0 := Plain.__init__ "127.0.0.1" 0 in
  let s1 := (Plain.start env_listening s0).1.2 in
  let s2 := (Plain.stop s1).1.2 in
  let second := Plain.start env_no_sockets s2 in
  Plain.reachable "127.0.0.1" 0 s2 /\
  Plain.port s2 = 0 /\
  first_socket_port (Plain.server_transport second.1.2) = None /\
  second.2 = Ok (Some 50123) /\
  second.2 <> Ok (Some (Plain.port s2)).
Proof.
  cbv zeta. split.
  { apply (Plain.reach_step _ _
             (Plain.start env_listening (Plain.__init__ "127.0.0.1" 0)).1.2);
      [|apply Plain.step_stop].
    apply (Plain.reach_step _ _ (Plain.__init__ "127.0.0.1" 0));
      [apply Plain.reach_init | apply Plain.step_start]. }
  split; [reflexivity|]. split; [reflexivity|]. split; [reflexivity|].
  intros Heq. vm_compute in Heq. discriminate Heq.
Qed.

(** A server object started again where the transport shows no socket
    keeps the port an earlier [start()] had stored in [actual_port]. *)
Example restart_keeps_stored_port :
  let s1 := (Plain.start env_listening (Plain.__init__ "127.0.0.1" 0)).1.2 in
  let s2 := (Plain.stop s1).1.2 in
  Plain.actual_port s2 = Some 50123 /\
  (Plain.start env_no_sockets s2).2 = Ok (Some 50123).
Proof. split; reflexivity. Qed.

(** ** [stop] *)

(** C10: [stop()] is idempotent in both servers: after a call the
    [server] field is [None]; a second call performs no shutdown action
    (its trace is empty) and leaves the object as it is; and so does a
    call on a freshly constructed object, before any [start()]. *)
Theorem stop_is_idempotent :
  (forall self : Plain.ReferenceServer,
     let after := (Plain.stop self).1.2 in
     Plain.server after = None /\
     Plain.stop after = ([], after, Ok tt)) /\
  (forall (host : string) (port : Z),
     Plain.stop (Plain.__init__ host port)
       = ([], Plain.__init__ host port, Ok tt)) /\
  (forall self : TLS.TLSReferenceServer,
     let after := (TLS.stop self).1.2 in
     TLS.server after = None /\
     TLS.stop after = ([], after, Ok tt)) /\
  (forall (host : string) (port : Z) (certfile keyfile : string)
          (cafile : option string),
     TLS.stop (TLS.__init__ host port certfile keyfile cafile)
       = ([], TLS.__init__ host port certfile keyfile cafile, Ok tt)).
Proof.
  repeat split.
  - rewrite plain_stop_eq. destruct (Plain.server self) eqn:Hsrv; auto.
  - rewrite (plain_stop_eq self).
    destruct (Plain.server self) eqn:Hsrv; cbn [fst snd].
    + rewrite plain_stop_eq. reflexivity.
    + rewrite plain_stop_eq, Hsrv. reflexivity.
  - rewrite tls_stop_eq. destruct (TLS.server self) eqn:Hsrv; auto.
  - rewrite (tls_stop_eq self).
    destruct (TLS.server self) eqn:Hsrv; cbn [fst snd].
    + rewrite tls_stop_eq. reflexivity.
    + rewrite tls_stop_eq, Hsrv. reflexivity.
Qed.

(** ** The port line on standard output *)

(** Unfolds a script down to its calls of [start] and [stop]. *)
Ltac unfold_coroutines :=
  cbv beta iota zeta delta
    [Plain.main Plain.main_coro Plain.json_main Plain.json_main_coro
     TLS.main TLS.main_coro TLS.json_main TLS.json_main_coro
     try_finally mbind Proc_bind for_each emit when mret Proc_ret].

(** From a completed [start] to the listening transport behind it. *)
Ltac invert_plain_start H :=
  rewrite plain_start_eq in H; cbv zeta in H;
  let tr := fresh "tr" in
  let e := fresh "e" in
  let Hserve := fresh "Hserve" in
  destruct (serve_forever _ _) as [tr|e] eqn:Hserve; [|discriminate H];
  injection H as <- <- <-.

Ltac invert_tls_start H :=
  rewrite tls_start_eq in H; cbv zeta in H;
  let sslctx := fresh "sslctx" in
  let tr := fresh "tr" in
  let e := fresh "e" in
  let Hssl := fresh "Hssl" in
  let Hserve := fresh "Hserve" in
  destruct (TLS._create_ssl_context _ _) as [sslctx|e] eqn:Hssl;
    [|discriminate H];
  destruct (serve_forever _ _) as [tr|e] eqn:Hserve; [|discriminate H];
  injection H as <- <- <-.

Lemma plain_script_port_line (env : Env) (args : Plain.Args)
    (t : Trace) (self' : Plain.ReferenceServer) (p : option Z) :
  pymodbus_installed env = true ->
  Plain.args_json args = false ->
  Plain.start env
    (Plain.__init__ (Plain.args_host args) (Plain.args_port args))
    = (t, self', Ok p) ->
  let tr := (Plain.script env args).1 in
  let line := (PText ("MODBUS_PORT=" +:+ Py.str_opt_int p), true) in
  written Stdout tr = [line] /\
  reaches_wait tr = true /\
  written Stdout (before_wait tr) = [line].
Proof.
  intros Hinst Hjson Hstart.
  unfold Plain.script. rewrite Hinst, Hjson. cbn [negb].
  destruct (Plain.args_verbose args);
    unfold_coroutines; rewrite Hstart; invert_plain_start Hstart;
    rewrite plain_stop_eq; cbn; repeat split.
Qed.

Lemma tls_script_port_line (env : Env) (args : TLS.Args)
    (t : Trace) (self' : TLS.TLSReferenceServer) (p : option Z) :
  pymodbus_installed env = true ->
  TLS.args_json args = false ->
  TLS.start env
    (TLS.__init__ (TLS.args_host args) (TLS.args_port args)
       (TLS.args_certfile args) (TLS.args_keyfile args) (TLS.args_cafile args))
    = (t, self', Ok p) ->
  let tr := (TLS.script env args).1 in
  let line := (PText ("MODBUS_TLS_PORT=" +:+ Py.str_opt_int p), true) in
  written Stdout tr = [line] /\
  reaches_wait tr = true /\
  written Stdout (before_wait tr) = [line].
Proof.
  intros Hinst Hjson Hstart.
  unfold TLS.script. rewrite Hinst, Hjson. cbn [negb].
  destruct (TLS.args_verbose args);
    unfold_coroutines; rewrite Hstart; invert_tls_start Hstart;
    rewrite tls_stop_eq; cbn; repeat split.
Qed.

(** C2: when [start()] has returned [p] (the bind succeeded), the
    plaintext script writes exactly one line to standard output,
    [MODBUS_PORT=<p>], with [flush=True], and that line is already out
    when the process blocks on the shutdown event; the TLS script does the
    same with [MODBUS_TLS_PORT=<p>]. *)
Theorem port_line_printed_once_before_blocking :
  (forall (env : Env) (args : Plain.Args) (t : Trace)
          (self' : Plain.ReferenceServer) (p : option Z),
     pymodbus_installed env = true ->
     Plain.args_json args = false ->
     Plain.start env
       (Plain.__init__ (Plain.args_host args) (Plain.args_port args))
       = (t, self', Ok p) ->
     let tr := (Plain.script env args).1 in
     let line := (PText ("MODBUS_PORT=" +:+ Py.str_opt_int p), true) in
     written Stdout tr = [line] /\
     reaches_wait tr = true /\
     written Stdout (before_wait tr) = [line]) /\
  (forall (env : Env) (args : TLS.Args) (t : Trace)
          (self' : TLS.TLSReferenceServer) (p : option Z),
     pymodbus_installed env = true ->
     TLS.args_json args = false ->
     TLS.start env
       (TLS.__init__ (TLS.args_host args) (TLS.args_port args)
          (TLS.args_certfile args) (TLS.args_keyfile args)
          (TLS.args_cafile args))
       = (t, self', Ok p) ->
     let tr := (TLS.script env args).1 in
     let line := (PText ("MODBUS_TLS_PORT=" +:+ Py.str_opt_int p), true) in
     written Stdout tr = [line] /\
     reaches_wait tr = true /\
     written Stdout (before_wait tr) = [line]).
Proof.
  split.
  - intros env args t self' p. apply plain_script_port_line.
  - intros env args t self' p. apply tls_script_port_line.
Qed.

(** Both scripts with their default arguments, in surroundings where the
    server listens on port 50123. *)
Lemma port_line_listening_50123 :
  (written Stdout (Plain.script env_listening plain_default_args).1
     = [(PText "MODBUS_PORT=50123", true)] /\
   reaches_wait (Plain.script env_listening plain_default_args).1 = true /\
   written Stdout (before_wait (Plain.script env_listening plain_default_args).1)
     = [(PText "MODBUS_PORT=50123", true)]) /\
  (written Stdout (TLS.script env_listening tls_default_args).1
     = [(PText "MODBUS_TLS_PORT=50123", true)] /\
   reaches_wait (TLS.script env_listening tls_default_args).1 = true /\
   written Stdout (before_wait (TLS.script env_listening tls_default_args).1)
     = [(PText "MODBUS_TLS_PORT=50123", true)]).
Proof.
  split.
  - exact (proj1 port_line_printed_once_before_blocking
             env_listening plain_default_args
             [EvServeForever ("127.0.0.1", 0)]
             (Plain.start env_listening (Plain.__init__ "127.0.0.1" 0)).1.2
             (Some 50123) eq_refl eq_refl eq_refl).
  - exact (proj2 port_line_printed_once_before_blocking
             env_listening tls_default_args
             [EvServeForever ("0.0.0.0", 802)]
             (TLS.start env_listening
                (TLS.__init__ "0.0.0.0" 802 "certs/server.crt"
                   "certs/server.key" None)).1.2
             (Some 50123) eq_refl eq_refl eq_refl).
Defined.

(** ** JSON mode *)

Lemma plain_script_json (env : Env) (args : Plain.Args)
    (t : Trace) (self' : Plain.ReferenceServer) (p : option Z) :
  pymodbus_installed env = true ->
  Plain.args_json args = true ->
  Plain.start env
    (Plain.__init__ (Plain.args_host args) (Plain.args_port args))
    = (t, self', Ok p) ->
  let tr := (Plain.script env args).1 in
  exists obj : list (string * JValue),
    written Stdout tr = [(PJson obj, true)] /\
    json_get obj "host" = Some (JStr (Plain.args_host args)) /\
    json_get obj "port" = Some (json_opt_int p) /\
    json_get obj "status" = Some (JStr "running") /\
    reaches_wait tr = true /\
    written Stdout (before_wait tr) = [(PJson obj, true)].
Proof.
  intros Hinst Hjson Hstart.
  unfold Plain.script. rewrite Hinst, Hjson. cbn [negb].
  unfold_coroutines. rewrite Hstart. invert_plain_start Hstart.
  rewrite plain_stop_eq.
  eexists. cbn. repeat split.
Qed.

Lemma tls_script_json (env : Env) (args : TLS.Args)
    (t : Trace) (self' : TLS.TLSReferenceServer) (p : option Z) :
  pymodbus_installed env = true ->
  TLS.args_json args = true ->
  TLS.start env
    (TLS.__init__ (TLS.args_host args) (TLS.args_port args)
       (TLS.args_certfile args) (TLS.args_keyfile args) (TLS.args_cafile args))
    = (t, self', Ok p) ->
  let tr := (TLS.script env args).1 in
  exists obj : list (string * JValue),
    written Stdout tr = [(PJson obj, true)] /\
    json_get obj "host" = Some (JStr (TLS.args_host args)) /\
    json_get obj "port" = Some (json_opt_int p) /\
    json_get obj "status" = Some (JStr "running") /\
    reaches_wait tr = true /\
    written Stdout (before_wait tr) = [(PJson obj, true)].
Proof.
  intros Hinst Hjson Hstart.
  unfold TLS.script. rewrite Hinst, Hjson. cbn [negb].
  unfold_coroutines. rewrite Hstart. invert_tls_start Hstart.
  rewrite tls_stop_eq.
  eexists. cbn. repeat split.
Qed.

(** C8: in [--json] mode, when [start()] has returned [p], each script
    writes exactly one thing to standard output in its whole run: one
    JSON object, with [flush=True], written before the process blocks on
    the shutdown event, whose ["host"] is the configured host, whose
    ["port"] is [p] and whose ["status"] is ["running"]. *)
Theorem json_mode_prints_one_object :
  (forall (env : Env) (args : Plain.Args) (t : Trace)
          (self' : Plain.ReferenceServer) (p : option Z),
     pymodbus_installed env = true ->
     Plain.args_json args = true ->
     Plain.start env
       (Plain.__init__ (Plain.args_host args) (Plain.args_port args))
       = (t, self', Ok p) ->
     let tr := (Plain.script env args).1 in
     exists obj : list (string * JValue),
       written Stdout tr = [(PJson obj, true)] /\
       json_get obj "host" = Some (JStr (Plain.args_host args)) /\
       json_get obj "port" = Some (json_opt_int p) /\
       json_get obj "status" = Some (JStr "running") /\
       reaches_wait tr = true /\
       written Stdout (before_wait tr) = [(PJson obj, true)]) /\
  (forall (env : Env) (args : TLS.Args) (t : Trace)
          (self' : TLS.TLSReferenceServer) (p : option Z),
     pymodbus_installed env = true ->
     TLS.args_json args = true ->
     TLS.start env
       (TLS.__init__ (TLS.args_host args) (TLS.args_port args)
          (TLS.args_certfile args) (TLS.args_keyfile args)
          (TLS.args_cafile args))
       = (t, self', Ok p) ->
     let tr := (TLS.script env args).1 in
     exists obj : list (string * JValue),
       written Stdout tr = [(PJson obj, true)] /\
       json_get obj "host" = Some (JStr (TLS.args_host args)) /\
       json_get obj "port" = Some (json_opt_int p) /\
       json_get obj "status" = Some (JStr "running") /\
       reaches_wait tr = true /\
       written Stdout (before_wait tr) = [(PJson obj, true)]).
Proof.
  split.
  - intros env args t self' p. apply plain_script_json.
  - intros env args t self' p. apply tls_script_json.
Qed.

(** The plaintext script with [--json] where the server listens on port
    50123. *)
Lemma json_object_listening_50123 :
  exists obj : list (string * JValue),
    written Stdout (Plain.script env_listening plain_json_args).1
      = [(PJson obj, true)] /\
    json_get obj "host" = Some (JStr "127.0.0.1") /\
    json_get obj "port" = Some (JInt 50123) /\
    json_get obj "status" = Some (JStr "running") /\
    reaches_wait (Plain.script env_listening plain_json_args).1 = true /\
    written Stdout (before_wait (Plain.script env_listening plain_json_args).1)
      = [(PJson obj, true)].
Proof.
  exact (proj1 json_mode_prints_one_object env_listening plain_json_args
           [EvServeForever ("127.0.0.1", 0)]
           (Plain.start env_listening (Plain.__init__ "127.0.0.1" 0)).1.2
           (Some 50123) eq_refl eq_refl eq_refl).
Defined.

(** ** The SSL context of the TLS server *)

Lemma read_pem_ok (env : Env) (path : string) :
  Ssl.read_pem env path = Ok tt <-> file_status env path = Pem.
Proof.
  unfold Ssl.read_pem.
  destruct (file_status env path); split; intros H; try discriminate H;
    reflexivity.
Qed.

Lemma load_cert_chain_ok (env : Env) (c c' : Ssl.SSLContext)
    (certfile keyfile : string) :
  Ssl.load_cert_chain env c certfile keyfile = Ok c' ->
  file_status env certfile = Pem /\
  file_status env keyfile = Pem /\
  c' = {| Ssl.protocol := Ssl.protocol c;
          Ssl.minimum_version := Ssl.minimum_version c;
          Ssl.cert_chain := Some (certfile, keyfile);
          Ssl.verify_locations := Ssl.verify_locations c;
          Ssl.verify_mode := Ssl.verify_mode c |}.
Proof.
  unfold Ssl.load_cert_chain, Ssl.read_pem, mbind, Res_bind, mret, Res_ret.
  destruct (file_status env certfile); try discriminate.
  destruct (file_status env keyfile); try discriminate.
  intros [= <-]. auto.
Qed.

Lemma load_verify_locations_ok (env : Env) (c c' : Ssl.SSLContext)
    (cafile : option string) :
  Ssl.load_verify_locations env c cafile = Ok c' ->
  exists path : string,
    cafile = Some path /\
    file_status env path = Pem /\
    c' = {| Ssl.protocol := Ssl.protocol c;
            Ssl.minimum_version := Ssl.minimum_version c;
            Ssl.cert_chain := Ssl.cert_chain c;
            Ssl.verify_locations := Some path;
            Ssl.verify_mode := Ssl.verify_mode c |}.
Proof.
  unfold Ssl.load_verify_locations, Ssl.read_pem, mbind, Res_bind, mret,
    Res_ret.
  destruct cafile as [path|]; [|discriminate].
  destruct (file_status env path) eqn:Hstatus; try discriminate.
  intros [= <-]. exists path. auto.
Qed.

Lemma truthy_str_nonempty (s : string) :
  Py.truthy_str s = true <-> s <> EmptyString.
Proof.
  destruct s; cbn; split; intros H; try discriminate; try reflexivity.
  contradiction.
Qed.

Lemma truthy_opt_str_supplied (o : option string) :
  Py.truthy_opt_str o = true <->
  exists ca : string, o = Some ca /\ ca <> EmptyString.
Proof.
  destruct o as [ca|]; cbn.
  - rewrite truthy_str_nonempty. split.
    + intros Hne. exists ca. auto.
    + intros (ca' & [= <-] & Hne). exact Hne.
  - split; [discriminate|]. intros (ca & Hsome & _). discriminate Hsome.
Qed.

Lemma ssl_context_fields (env : Env) (self : TLS.TLSReferenceServer)
    (ctx : Ssl.SSLContext) :
  TLS._create_ssl_context env self = Ok ctx ->
  Ssl.minimum_version ctx = Ssl.TLSv1_2 /\
  Ssl.cert_chain ctx = Some (TLS.certfile self, TLS.keyfile self) /\
  Ssl.verify_mode ctx =
    if Py.truthy_opt_str (TLS.cafile self)
    then Ssl.CERT_OPTIONAL else Ssl.CERT_NONE.
Proof.
  unfold TLS._create_ssl_context.
  unfold mbind at 1; unfold Res_bind at 1.
  destruct (Ssl.load_cert_chain env _ _ _) as [c1|e] eqn:Hchain;
    [|discriminate].
  apply load_cert_chain_ok in Hchain as (_ & _ & ->).
  destruct (Py.truthy_opt_str (TLS.cafile self)).
  - unfold mbind, Res_bind.
    destruct (Ssl.load_verify_locations env _ _) as [c2|e] eqn:Hverify;
      [|discriminate].
    apply load_verify_locations_ok in Hverify as (path & _ & _ & ->).
    intros [= <-]. cbn. auto.
  - intros [= <-]. cbn. auto.
Qed.

(** C6: every SSL context [_create_ssl_context] returns has minimum
    protocol version TLS 1.2 and holds the server's certificate chain
    (the configured certificate and key files); its [verify_mode] is
    [CERT_OPTIONAL] exactly when a CA file is supplied (a [cafile] that
    is a non-empty path), and [CERT_NONE] otherwise.  A context is
    returned whenever the certificate, the key and, if supplied, the CA
    file are good PEM files. *)
Theorem ssl_context_configuration (env : Env) (self : TLS.TLSReferenceServer) :
  (forall ctx : Ssl.SSLContext,
     TLS._create_ssl_context env self = Ok ctx ->
     Ssl.minimum_version ctx = Ssl.TLSv1_2 /\
     Ssl.cert_chain ctx = Some (TLS.certfile self, TLS.keyfile self) /\
     (Ssl.verify_mode ctx = Ssl.CERT_OPTIONAL <->
      exists ca : string, TLS.cafile self = Some ca /\ ca <> EmptyString) /\
     (Ssl.verify_mode ctx = Ssl.CERT_NONE <->
      ~ exists ca : string, TLS.cafile self = Some ca /\ ca <> EmptyString)) /\
  (file_status env (TLS.certfile self) = Pem ->
   file_status env (TLS.keyfile self) = Pem ->
   (forall ca : string,
      TLS.cafile self = Some ca -> ca <> EmptyString ->
      file_status env ca = Pem) ->
   exists ctx : Ssl.SSLContext, TLS._create_ssl_context env self = Ok ctx).
Proof.
  split.
  - intros ctx Hctx.
    destruct (ssl_context_fields env self ctx Hctx) as (Hmin & Hchain & Hmode).
    split; [exact Hmin|]. split; [exact Hchain|].
    rewrite Hmode, <- truthy_opt_str_supplied.
    destruct (Py.truthy_opt_str (TLS.cafile self)).
    + split; split; auto; try discriminate. intros Hno. contradiction.
    + split; split; auto; discriminate.
  - intros Hcert Hkey Hca. unfold TLS._create_ssl_context.
    unfold Ssl.load_cert_chain.
    rewrite (proj2 (read_pem_ok env _) Hcert), (proj2 (read_pem_ok env _) Hkey).
    cbn.
    destruct (Py.truthy_opt_str (TLS.cafile self)) eqn:Htruthy; [|eauto].
    apply truthy_opt_str_supplied in Htruthy as (ca & Hsome & Hne).
    rewrite Hsome. unfold Ssl.load_verify_locations.
    rewrite (proj2 (read_pem_ok env ca) (Hca ca Hsome Hne)).
    cbn. eauto.
Qed.

(** The TLS server started with [--cafile certs/ca.crt] where the files
    under [certs/] are good: the context asks for TLS 1.2 and an optional
    client certificate. *)
Lemma ssl_context_with_cafile :
  let self :=
    TLS.__init__ "0.0.0.0" 802 "certs/server.crt" "certs/server.key"
      (Some "certs/ca.crt") in
  exists ctx : Ssl.SSLContext,
    TLS._create_ssl_context env_listening self = Ok ctx /\
    Ssl.minimum_version ctx = Ssl.TLSv1_2 /\
    Ssl.cert_chain ctx = Some ("certs/server.crt", "certs/server.key") /\
    Ssl.verify_mode ctx = Ssl.CERT_OPTIONAL.
Proof.
  cbv zeta.
  pose (self := TLS.__init__ "0.0.0.0" 802 "certs/server.crt"
                  "certs/server.key" (Some "certs/ca.crt")).
  destruct (ssl_context_configuration env_listening self) as [Hsound Hexists].
  destruct Hexists as [ctx Hctx]; [reflexivity | reflexivity | |].
  { intros ca [= <-] _. reflexivity. }
  exists ctx. split; [exact Hctx|].
  destruct (Hsound ctx Hctx) as (Hmin & Hchain & Hopt & _).
  split; [exact Hmin|]. split; [exact Hchain|].
  apply Hopt. exists "certs/ca.crt". split; [reflexivity | discriminate].
Defined.

(** ** Startup errors *)

Lemma ssl_context_missing_file (env : Env) (self : TLS.TLSReferenceServer) :
  file_status env (TLS.certfile self) = Missing \/
  file_status env (TLS.keyfile self) = Missing ->
  exists e : Exn, TLS._create_ssl_context env self = Raise e.
Proof.
  intros Hmissing.
  unfold TLS._create_ssl_context, Ssl.load_cert_chain, Ssl.read_pem.
  destruct (file_status env (TLS.certfile self)) eqn:Hcert;
    cbn; eauto.
  - destruct (file_status env (TLS.keyfile self)) eqn:Hkey; cbn; eauto.
    destruct Hmissing as [Hm | Hm]; discriminate Hm.
Qed.

(** Whatever makes [start()] raise, the plaintext script ends as a
    startup failure. *)
Lemma plain_script_start_raises (env : Env) (args : Plain.Args)
    (t : Trace) (self' : Plain.ReferenceServer) (e : Exn) :
  pymodbus_installed env = true ->
  Plain.start env
    (Plain.__init__ (Plain.args_host args) (Plain.args_port args))
    = (t, self', Raise e) ->
  startup_failure (Plain.script env args).
Proof.
  intros Hinst Hstart.
  unfold startup_failure, Plain.script. rewrite Hinst. cbn [negb].
  rewrite plain_start_eq in Hstart. cbv zeta in Hstart.
  destruct (serve_forever env _) as [tr|e'] eqn:Hserve; [discriminate Hstart|].
  injection Hstart as <- <- <-.
  destruct (Plain.args_json args), (Plain.args_verbose args);
    unfold_coroutines; rewrite plain_start_eq; cbv zeta; rewrite Hserve;
    try rewrite plain_stop_eq; cbn;
    (split; [lia | split; [discriminate | reflexivity]]).
Qed.

Lemma tls_script_start_raises (env : Env) (args : TLS.Args)
    (t : Trace) (self' : TLS.TLSReferenceServer) (e : Exn) :
  pymodbus_installed env = true ->
  TLS.start env
    (TLS.__init__ (TLS.args_host args) (TLS.args_port args)
       (TLS.args_certfile args) (TLS.args_keyfile args) (TLS.args_cafile args))
    = (t, self', Raise e) ->
  startup_failure (TLS.script env args).
Proof.
  intros Hinst Hstart.
  unfold startup_failure, TLS.script. rewrite Hinst. cbn [negb].
  rewrite tls_start_eq in Hstart. cbv zeta in Hstart.
  destruct (TLS._create_ssl_context env _) as [sslctx|e1] eqn:Hssl.
  - destruct (serve_forever env _) as [tr|e2] eqn:Hserve;
      [discriminate Hstart|].
    injection Hstart as <- <- <-.
    destruct (TLS.args_json args), (TLS.args_verbose args);
      unfold_coroutines; rewrite tls_start_eq; cbv zeta;
      rewrite Hssl, Hserve; try rewrite tls_stop_eq; cbn;
      (split; [lia | split; [discriminate | reflexivity]]).
  - injection Hstart as <- <- <-.
    destruct (TLS.args_json args), (TLS.args_verbose args);
      unfold_coroutines; rewrite tls_start_eq; cbv zeta;
      rewrite Hssl; try rewrite tls_stop_eq; cbn;
      (split; [lia | split; [discriminate | reflexivity]]).
Qed.

(** C7: when pymodbus cannot be imported, either script ends with a
    nonzero exit status, having written a diagnostic to standard error and
    nothing (so no port line) to standard output; and so does the TLS
    script when the certificate file or the key file is missing. *)
Theorem startup_errors_are_fatal :
  (forall (env : Env) (args : Plain.Args),
     pymodbus_installed env = false ->
     startup_failure (Plain.script env args)) /\
  (forall (env : Env) (args : TLS.Args),
     pymodbus_installed env = false ->
     startup_failure (TLS.script env args)) /\
  (forall (env : Env) (args : TLS.Args),
     pymodbus_installed env = true ->
     file_status env (TLS.args_certfile args) = Missing \/
     file_status env (TLS.args_keyfile args) = Missing ->
     startup_failure (TLS.script env args)).
Proof.
  split; [|split].
  - intros env args Hinst. unfold startup_failure, Plain.script. rewrite Hinst. cbn.
    split; [lia | split; [discriminate | reflexivity]].
  - intros env args Hinst. unfold startup_failure, TLS.script. rewrite Hinst. cbn.
    split; [lia | split; [discriminate | reflexivity]].
  - intros env args Hinst Hmissing.
    pose (self := TLS.__init__ (TLS.args_host args) (TLS.args_port args)
                    (TLS.args_certfile args) (TLS.args_keyfile args)
                    (TLS.args_cafile args)).
    destruct (ssl_context_missing_file env self Hmissing) as [e Hssl].
    apply (tls_script_start_raises env args [] self e Hinst).
    rewrite tls_start_eq. cbv zeta. fold self. rewrite Hssl. reflexivity.
Qed.

(** The scripts where pymodbus is absent, and the TLS script, verbose,
    where no certificate or key file exists. *)
Lemma startup_failures_observed :
  startup_failure (Plain.script env_no_pymodbus plain_default_args) /\
  startup_failure (TLS.script env_no_pymodbus tls_default_args) /\
  startup_failure (TLS.script env_no_certs tls_mtls_args).
Proof.
  destruct startup_errors_are_fatal as (Hplain & Htls & Hcerts).
  split; [|split].
  - apply Hplain. reflexivity.
  - apply Htls. reflexivity.
  - apply Hcerts; [reflexivity | left; reflexivity].
Defined.

(** ** Device identification *)

Lemma plain_identity_invariant (host : string) (port : Z)
    (self : Plain.ReferenceServer) :
  Plain.reachable host port self ->
  forall srv : ModbusTcpServer,
    Plain.server self = Some srv ->
    tcp_identity srv = Plain._create_identity.
Proof.
  induction 1 as [|self self' Hreach IH Hstep].
  - intros srv Hsrv. discriminate Hsrv.
  - destruct Hstep as [env self | self].
    + rewrite plain_start_eq. cbv zeta.
      destruct (serve_forever env _) as [tr|e];
        cbn; intros srv [= <-]; reflexivity.
    + rewrite plain_stop_eq.
      destruct (Plain.server self) as [srv0|] eqn:Hsrv0; cbn.
      * intros srv Hsrv. discriminate Hsrv.
      * rewrite Hsrv0. intros srv Hsrv. discriminate Hsrv.
Qed.

Lemma tls_identity_invariant (host : string) (port : Z)
    (certfile keyfile : string) (cafile : option string)
    (self : TLS.TLSReferenceServer) :
  TLS.reachable host port certfile keyfile cafile self ->
  forall srv : ModbusTlsServer,
    TLS.server self = Some srv ->
    tls_identity srv = TLS._create_identity.
Proof.
  induction 1 as [|self self' Hreach IH Hstep].
  - intros srv Hsrv. discriminate Hsrv.
  - destruct Hstep as [env self | self].
    + rewrite tls_start_eq. cbv zeta.
      destruct (TLS._create_ssl_context env self) as [sslctx|e1];
        [|exact IH].
      destruct (serve_forever env _) as [tr|e];
        cbn; intros srv [= <-]; reflexivity.
    + rewrite tls_stop_eq.
      destruct (TLS.server self) as [srv0|] eqn:Hsrv0; cbn.
      * intros srv Hsrv. discriminate Hsrv.
      * rewrite Hsrv0. intros srv Hsrv. discriminate Hsrv.
Qed.

(** C5: the device identification either server builds maps the object
    IDs 0x00 to 0x05, in this order, to VendorName, ProductCode,
    MajorMinorRevision, VendorUrl, ProductName and ModelName; object ID
    0x00 maps to the string ModbusKit in both; and in every state a server
    object reaches through calls of [start()] and [stop()], the server it
    holds still carries exactly that mapping. *)
Theorem device_identification_mapping :
  (info Plain._create_identity =
     [ (0, Plain.VENDOR_NAME); (1, Plain.PRODUCT_CODE);
       (2, Plain.MAJOR_MINOR_REVISION); (3, Plain.VENDOR_URL);
       (4, Plain.PRODUCT_NAME); (5, Plain.MODEL_NAME) ] /\
   info TLS._create_identity =
     [ (0, TLS.VENDOR_NAME); (1, TLS.PRODUCT_CODE);
       (2, TLS.MAJOR_MINOR_REVISION); (3, TLS.VENDOR_URL);
       (4, TLS.PRODUCT_NAME); (5, TLS.MODEL_NAME) ]) /\
  (dict_get (info Plain._create_identity) 0x00 = Some "ModbusKit" /\
   dict_get (info TLS._create_identity) 0x00 = Some "ModbusKit") /\
  (forall (host : string) (port : Z)
          (self : Plain.ReferenceServer) (srv : ModbusTcpServer),
     Plain.reachable host port self ->
     Plain.server self = Some srv ->
     tcp_identity srv = Plain._create_identity /\
     dict_get (info (tcp_identity srv)) 0x00 = Some "ModbusKit") /\
  (forall (host : string) (port : Z) (certfile keyfile : string)
          (cafile : option string)
          (self : TLS.TLSReferenceServer) (srv : ModbusTlsServer),
     TLS.reachable host port certfile keyfile cafile self ->
     TLS.server self = Some srv ->
     tls_identity srv = TLS._create_identity /\
     dict_get (info (tls_identity srv)) 0x00 = Some "ModbusKit").
Proof.
  split; [split; reflexivity|].
  split; [split; reflexivity|].
  split.
  - intros host port self srv Hreach Hsrv.
    rewrite (plain_identity_invariant host port self Hreach srv Hsrv).
    split; reflexivity.
  - intros host port certfile keyfile cafile self srv Hreach Hsrv.
    rewrite (tls_identity_invariant host port certfile keyfile cafile
               self Hreach srv Hsrv).
    split; reflexivity.
Qed.

(** A plaintext server object after [start()], [stop()] and a second
    [start()] in other surroundings: the server it holds answers object
    ID 0x00 with ModbusKit. *)
Lemma identity_after_restart :
  let s0 := Plain.__init__ "127.0.0.1" 0 in
  let s1 := (Plain.start env_listening s0).1.2 in
  let s2 := (Plain.stop s1).1.2 in
  let s3 := (Plain.start env_no_sockets s2).1.2 in
  exists srv : ModbusTcpServer,
    Plain.server s3 = Some srv /\
    dict_get (info (tcp_identity srv)) 0x00 = Some "ModbusKit".
Proof.
  cbv zeta.
  pose (s0 := Plain.__init__ "127.0.0.1" 0).
  pose (s1 := (Plain.start env_listening s0).1.2).
  pose (s2 := (Plain.stop s1).1.2).
  pose (s3 := (Plain.start env_no_sockets s2).1.2).
  assert (Plain.reachable "127.0.0.1" 0 s3) as Hreach.
  { apply (Plain.reach_step _ _ s2); [|apply Plain.step_start].
    apply (Plain.reach_step _ _ s1); [|apply Plain.step_stop].
    apply (Plain.reach_step _ _ s0); [|apply Plain.step_start].
    apply Plain.reach_init. }
  eexists. split; [reflexivity|].
  exact (proj2 (proj1 (proj2 (proj2 device_identification_mapping))
                  "127.0.0.1" 0 s3 _ Hreach eq_refl)).
Defined.

(** ** Further properties of the scripts *)

(** The seeded register values are 16-bit values: in both servers, at
    every address [i] of [0, 1000), the holding register is [i mod 65536]
    and the input register is [i * 10 mod 65536], and every register of
    either space lies in [0, 65536). *)
Theorem seeded_registers_are_16_bit (i : Z) :
  0 <= i < 1000 ->
  forall store : ModbusDeviceContext,
    store = devices Plain._create_datastore \/
    store = devices TLS._create_datastore ->
    values (hr store) !! Z.to_nat i = Some (i mod 65536) /\
    values (ir store) !! Z.to_nat i = Some ((i * 10) mod 65536) /\
    Forall (fun v => 0 <= v < 65536) (values (hr store)) /\
    Forall (fun v => 0 <= v < 65536) (values (ir store)).
Proof.
  intros Hi store Hstore.
  assert (store = devices Plain._create_datastore) as ->.
  { destruct Hstore as [-> | ->]; [reflexivity|].
    rewrite datastores_equal. reflexivity. }
  destruct (plain_seeding i Hi) as (_ & _ & Hhr & Hir).
  rewrite !Z.mod_small by lia.
  split; [exact Hhr|]. split; [exact Hir|].
  cbn [Plain._create_datastore devices hr ir values].
  unfold Plain.HOLDING_REGISTER_COUNT, Plain.INPUT_REGISTER_COUNT, Py.range.
  split.
  - apply Forall_seqZ. intros v Hv. lia.
  - apply Forall_fmap, Forall_seqZ. intros v Hv. cbn. lia.
Qed.

(** Address 999, the largest input register value. *)
Lemma seeded_registers_at_999 :
  values (hr (devices TLS._create_datastore)) !! 999%nat = Some (999 mod 65536) /\
  values (ir (devices TLS._create_datastore)) !! 999%nat
    = Some ((999 * 10) mod 65536).
Proof.
  destruct (seeded_registers_are_16_bit 999 ltac:(lia)
              (devices TLS._create_datastore) (or_intror eq_refl))
    as (Hhr & Hir & _).
  split; [exact Hhr | exact Hir].
Defined.

(** Whatever makes [start()] raise (a bind failure as well as a bad
    certificate), either script, in either output mode, ends with a
    nonzero exit status, a diagnostic on standard error and nothing on
    standard output. *)
Theorem start_failure_is_fatal :
  (forall (env : Env) (args : Plain.Args) (t : Trace)
          (self' : Plain.ReferenceServer) (e : Exn),
     pymodbus_installed env = true ->
     Plain.start env
       (Plain.__init__ (Plain.args_host args) (Plain.args_port args))
       = (t, self', Raise e) ->
     startup_failure (Plain.script env args)) /\
  (forall (env : Env) (args : TLS.Args) (t : Trace)
          (self' : TLS.TLSReferenceServer) (e : Exn),
     pymodbus_installed env = true ->
     TLS.start env
       (TLS.__init__ (TLS.args_host args) (TLS.args_port args)
          (TLS.args_certfile args) (TLS.args_keyfile args)
          (TLS.args_cafile args))
       = (t, self', Raise e) ->
     startup_failure (TLS.script env args)).
Proof.
  split.
  - intros env args t self' e. apply plain_script_start_raises.
  - intros env args t self' e. apply tls_script_start_raises.
Qed.

(** The plaintext script where the address cannot be bound. *)
Lemma bind_failure_observed :
  startup_failure (Plain.script env_port_in_use plain_default_args).
Proof.
  exact (proj1 start_failure_is_fatal env_port_in_use plain_default_args
           [EvServeForever ("127.0.0.1", 0)]
           (Plain.start env_port_in_use (Plain.__init__ "127.0.0.1" 0)).1.2
           (OSError ("127.0.0.1", 0)) eq_refl eq_refl).
Defined.

Lemma plain_script_clean_exit (env : Env) (args : Plain.Args)
    (t : Trace) (self' : Plain.ReferenceServer) (p : option Z) :
  pymodbus_installed env = true ->
  Plain.start env
    (Plain.__init__ (Plain.args_host args) (Plain.args_port args))
    = (t, self', Ok p) ->
  (Plain.script env args).2 = 0 /\
  shutdowns (Plain.script env args).1 = 1%nat /\
  shutdowns (before_wait (Plain.script env args).1) = 0%nat /\
  last (Plain.script env args).1 = Some EvServerShutdown.
Proof.
  intros Hinst Hstart.
  unfold Plain.script. rewrite Hinst. cbn [negb].
  destruct (Plain.args_json args), (Plain.args_verbose args);
    unfold_coroutines; rewrite Hstart; invert_plain_start Hstart;
    rewrite plain_stop_eq; cbn; repeat split.
Qed.

Lemma tls_script_clean_exit (env : Env) (args : TLS.Args)
    (t : Trace) (self' : TLS.TLSReferenceServer) (p : option Z) :
  pymodbus_installed env = true ->
  TLS.start env
    (TLS.__init__ (TLS.args_host args) (TLS.args_port args)
       (TLS.args_certfile args) (TLS.args_keyfile args) (TLS.args_cafile args))
    = (t, self', Ok p) ->
  (TLS.script env args).2 = 0 /\
  shutdowns (TLS.script env args).1 = 1%nat /\
  shutdowns (before_wait (TLS.script env args).1) = 0%nat /\
  last (TLS.script env args).1 = Some EvServerShutdown.
Proof.
  intros Hinst Hstart.
  unfold TLS.script. rewrite Hinst. cbn [negb].
  destruct (TLS.args_json args), (TLS.args_verbose args);
    unfold_coroutines; rewrite Hstart; invert_tls_start Hstart;
    rewrite tls_stop_eq; cbn; repeat split.
Qed.

(** Clean shutdown: when [start()] has completed and the shutdown event
    arrives, either script, in either output mode, shuts the server down
    exactly once, after the wait and as the last thing it does, and the
    process ends with status 0. *)
Theorem clean_shutdown_exits_zero :
  (forall (env : Env) (args : Plain.Args) (t : Trace)
          (self' : Plain.ReferenceServer) (p : option Z),
     pymodbus_installed env = true ->
     Plain.start env
       (Plain.__init__ (Plain.args_host args) (Plain.args_port args))
       = (t, self', Ok p) ->
     (Plain.script env args).2 = 0 /\
     shutdowns (Plain.script env args).1 = 1%nat /\
     shutdowns (before_wait (Plain.script env args).1) = 0%nat /\
     last (Plain.script env args).1 = Some EvServerShutdown) /\
  (forall (env : Env) (args : TLS.Args) (t : Trace)
          (self' : TLS.TLSReferenceServer) (p : option Z),
     pymodbus_installed env = true ->
     TLS.start env
       (TLS.__init__ (TLS.args_host args) (TLS.args_port args)
          (TLS.args_certfile args) (TLS.args_keyfile args)
          (TLS.args_cafile args))
       = (t, self', Ok p) ->
     (TLS.script env args).2 = 0 /\
     shutdowns (TLS.script env args).1 = 1%nat /\
     shutdowns (before_wait (TLS.script env args).1) = 0%nat /\
     last (TLS.script env args).1 = Some EvServerShutdown).
Proof.
  split.
  - intros env args t self' p. apply plain_script_clean_exit.
  - intros env args t self' p. apply tls_script_clean_exit.
Qed.

(** The TLS script with [-v --cafile certs/ca.crt] where the server
    listens. *)
Lemma clean_shutdown_tls_verbose :
  (TLS.script env_listening tls_mtls_args).2 = 0 /\
  shutdowns (TLS.script env_listening tls_mtls_args).1 = 1%nat /\
  shutdowns (before_wait (TLS.script env_listening tls_mtls_args).1) = 0%nat /\
  last (TLS.script env_listening tls_mtls_args).1 = Some EvServerShutdown.
Proof.
  exact (proj2 clean_shutdown_exits_zero env_listening tls_mtls_args
           [EvServeForever ("0.0.0.0", 802)]
           (TLS.start env_listening
              (TLS.__init__ "0.0.0.0" 802 "certs/server.crt"
                 "certs/server.key" (Some "certs/ca.crt"))).1.2
           (Some 50123) eq_refl eq_refl).
Defined.

(** ** The guarded imports *)

(** The guarded import block works with the old and the new pymodbus
    names alike: it succeeds exactly when the two datastore classes, the
    server class and the version are importable, together with either name
    of the device context and either home of the device identification;
    the new name is taken whenever it exists; nothing but [ImportError]
    ever comes out of it, so the guard exits with status 1 exactly when
    the block fails and lets the script run on otherwise. *)
Theorem import_block_accepts_old_and_new_names
    (server_class : string) (avail : Imports.Importable) :
  let ok :=
    avail "pymodbus.datastore" "ModbusSequentialDataBlock" &&
    avail "pymodbus.datastore" "ModbusServerContext" &&
    (avail "pymodbus.datastore" "ModbusDeviceContext" ||
     avail "pymodbus.datastore" "ModbusSlaveContext") &&
    avail "pymodbus.server" server_class &&
    (avail "pymodbus" "ModbusDeviceIdentification" ||
     avail "pymodbus.device" "ModbusDeviceIdentification") &&
    avail "pymodbus" "__version__" in
  Imports.import_block server_class avail =
    (if ok
     then Ok {| Imports.device_context_class :=
                  if avail "pymodbus.datastore" "ModbusDeviceContext"
                  then "ModbusDeviceContext" else "ModbusSlaveContext";
                Imports.identification_module :=
                  if avail "pymodbus" "ModbusDeviceIdentification"
                  then "pymodbus" else "pymodbus.device" |}
     else Raise ImportError) /\
  (Imports.guarded_imports server_class avail).2 =
    (if ok then None else Some 1).
Proof.
  cbv zeta.
  unfold Imports.guarded_imports, Imports.import_block, Imports.from_import,
    Imports.try_except_ImportError, mbind, Res_bind, mret, Res_ret.
  destruct (avail "pymodbus.datastore" "ModbusSequentialDataBlock");
    [|split; reflexivity].
  destruct (avail "pymodbus.datastore" "ModbusServerContext");
    [|split; reflexivity].
  destruct (avail "pymodbus.datastore" "ModbusDeviceContext"),
           (avail "pymodbus.datastore" "ModbusSlaveContext");
    cbn [andb orb]; try (split; reflexivity);
    (destruct (avail "pymodbus.server" server_class);
       [|split; reflexivity]);
    destruct (avail "pymodbus" "ModbusDeviceIdentification"),
             (avail "pymodbus.device" "ModbusDeviceIdentification");
    cbn [andb orb]; try (split; reflexivity);
    destruct (avail "pymodbus" "__version__"); split; reflexivity.
Qed.

(** ** Patterns of the seeded data *)

Lemma even_flips (i : Z) : ((i + 1) mod 2 =? 0) = negb (i mod 2 =? 0).
Proof.
  destruct (Z.eqb_spec (i mod 2) 0) as [H0 | H0],
           (Z.eqb_spec ((i + 1) mod 2) 0) as [H1 | H1];
    try reflexivity; exfalso; Z.div_mod_to_equations; lia.
Qed.

Lemma plain_block_seeding (i : Z) :
  0 <= i < 1000 ->
  let store := devices Plain._create_datastore in
  block_at (co store) i = Some (i mod 2 =? 0) /\
  block_at (di store) i = Some (i <? 100) /\
  block_at (hr store) i = Some i /\
  block_at (ir store) i = Some (i * 10).
Proof.
  intros Hi. cbv zeta.
  destruct plain_block_addresses as (Aco & Adi & Ahr & Air).
  rewrite !block_at_zero_based by (assumption || lia).
  exact (plain_seeding i Hi).
Qed.

(** The seeded data have the patterns the docstring names, in both
    servers, at the blocks' own addresses: coils alternate, starting with
    [True] at address 0 (each coil is the negation of the one before); at
    every address of [0, 1000) the discrete input is [True] exactly
    below address 100; holding registers go up by 1 and input registers
    by 10 from one address to the next, starting at 0, and at every
    address the input register is ten times the holding register. *)
Theorem seeded_data_patterns (i : Z) :
  0 <= i < 1000 ->
  forall store : ModbusDeviceContext,
    store = devices Plain._create_datastore \/
    store = devices TLS._create_datastore ->
    (block_at (co store) 0 = Some true /\
     (i + 1 < 1000 ->
      block_at (co store) (i + 1) = negb <$> block_at (co store) i)) /\
    (exists b : bool,
       block_at (di store) i = Some b /\ (b = true <-> i < 100)) /\
    (block_at (hr store) 0 = Some 0 /\
     (i + 1 < 1000 ->
      block_at (hr store) (i + 1) = Z.succ <$> block_at (hr store) i)) /\
    (block_at (ir store) 0 = Some 0 /\
     (i + 1 < 1000 ->
      block_at (ir store) (i + 1) = Z.add 10 <$> block_at (ir store) i) /\
     block_at (ir store) i = Z.mul 10 <$> block_at (hr store) i).
Proof.
  intros Hi store Hstore.
  assert (store = devices Plain._create_datastore) as ->.
  { destruct Hstore as [-> | ->]; [reflexivity|].
    rewrite datastores_equal. reflexivity. }
  destruct (plain_block_seeding i Hi) as (Hco & Hdi & Hhr & Hir).
  destruct (plain_block_seeding 0 ltac:(lia)) as (Hco0 & _ & Hhr0 & Hir0).
  cbv zeta in *. rewrite Hco, Hdi, Hhr, Hir, Hco0, Hhr0, Hir0.
  split.
  { split; [reflexivity|]. intros Hnext.
    destruct (plain_block_seeding (i + 1) ltac:(lia)) as (Hco' & _).
    cbv zeta in Hco'. rewrite Hco'. cbn. f_equal. apply even_flips. }
  split.
  { exists (i <? 100). split; [reflexivity|]. apply Z.ltb_lt. }
  split.
  { split; [reflexivity|]. intros Hnext.
    destruct (plain_block_seeding (i + 1) ltac:(lia)) as (_ & _ & Hhr' & _).
    cbv zeta in Hhr'. rewrite Hhr'. cbn. f_equal. }
  split; [reflexivity|]. split; [|cbn; f_equal; lia].
  intros Hnext.
  destruct (plain_block_seeding (i + 1) ltac:(lia)) as (_ & _ & _ & Hir').
  cbv zeta in Hir'. rewrite Hir'. cbn. f_equal. lia.
Qed.

(** Around the edge of the discrete inputs (addresses 99 and 100), and at
    the last address, 999. *)
Lemma seeded_data_patterns_at_99 :
  let store := devices Plain._create_datastore in
  block_at (co store) 100 = negb <$> block_at (co store) 99 /\
  block_at (ir store) 99 = Z.mul 10 <$> block_at (hr store) 99 /\
  exists b : bool,
    block_at (di store) 999 = Some b /\ (b = true <-> 999 < 100).
Proof.
  destruct (seeded_data_patterns 99 ltac:(lia)
              (devices Plain._create_datastore) (or_introl eq_refl))
    as ((_ & Hco) & _ & _ & (_ & _ & Hir)).
  destruct (seeded_data_patterns 999 ltac:(lia)
              (devices Plain._create_datastore) (or_introl eq_refl))
    as (_ & Hdi & _).
  split; [exact (Hco ltac:(lia))|]. split; [exact Hir | exact Hdi].
Defined.

(** ** The identification dict *)

(** The dict either script passes as [info] has exactly the keys 0x00 to
    0x05: a lookup of any other object ID finds nothing.  The two
    servers answer every object ID alike except 0x04 (ProductName) and
    0x05 (ModelName), where they differ. *)
Theorem identification_keys_and_difference (k : Z) :
  (is_Some (dict_get (info Plain._create_identity) k) <-> 0 <= k <= 5) /\
  (is_Some (dict_get (info TLS._create_identity) k) <-> 0 <= k <= 5) /\
  (dict_get (info Plain._create_identity) k
     = dict_get (info TLS._create_identity) k <-> k <> 4 /\ k <> 5).
Proof.
  cbn [Plain._create_identity TLS._create_identity info dict_get].
  destruct (Z.eqb_spec 0 k) as [<- | H0];
    [repeat split; try lia; try discriminate; eauto|].
  destruct (Z.eqb_spec 1 k) as [<- | H1];
    [repeat split; try lia; try discriminate; eauto|].
  destruct (Z.eqb_spec 2 k) as [<- | H2];
    [repeat split; try lia; try discriminate; eauto|].
  destruct (Z.eqb_spec 3 k) as [<- | H3];
    [repeat split; try lia; try discriminate; eauto|].
  destruct (Z.eqb_spec 4 k) as [<- | H4];
    [repeat split; try lia; try discriminate; eauto|].
  destruct (Z.eqb_spec 5 k) as [<- | H5];
    [repeat split; try lia; try discriminate; eauto|].
  repeat split; try lia; try congruence;
    match goal with
    | H : is_Some None |- _ => destruct H as [v Hv]; discriminate Hv
    end.
Qed.

(** ** Whole runs, whatever the surroundings *)

(** Runs the plaintext script by cases: is pymodbus there, which output
    mode, verbose or not, does [serve_forever] return. *)
Ltac plain_cases env args :=
  unfold Plain.script;
  cbn [plain_args_with Plain.args_host Plain.args_port Plain.args_verbose
       Plain.args_json];
  destruct (pymodbus_installed env) eqn:Hinst; cbn [negb];
  [ destruct (Plain.args_json args) eqn:Hjson,
             (Plain.args_verbose args) eqn:Hverbose;
    unfold_coroutines;
    cbn [plain_args_with Plain.args_host Plain.args_port Plain.args_verbose
         Plain.args_json];
    rewrite plain_start_eq; cbv zeta;
    cbn [Plain.__init__ Plain.host Plain.port Plain.actual_port Plain.server];
    destruct (serve_forever env _) as [tr|e] eqn:Hserve;
    try rewrite plain_stop_eq
  | ].

(** The same for the TLS script, with the outcome of
    [_create_ssl_context] as one more case. *)
Ltac tls_cases env args :=
  unfold TLS.script, tls_server_of;
  cbn [tls_args_with TLS.args_host TLS.args_port TLS.args_certfile
       TLS.args_keyfile TLS.args_cafile TLS.args_verbose TLS.args_json];
  destruct (pymodbus_installed env) eqn:Hinst; cbn [negb];
  [ destruct (TLS.args_json args) eqn:Hjson,
             (TLS.args_verbose args) eqn:Hverbose;
    unfold_coroutines;
    cbn [tls_args_with TLS.args_host TLS.args_port TLS.args_certfile
         TLS.args_keyfile TLS.args_cafile TLS.args_verbose TLS.args_json];
    rewrite tls_start_eq; cbv zeta;
    cbn [TLS.__init__ TLS.host TLS.port TLS.actual_port TLS.server];
    (destruct (TLS._create_ssl_context env _) as [sslctx|e0] eqn:Hssl;
     [ destruct (serve_forever env _) as [tr|e] eqn:Hserve | ]);
    try rewrite tls_stop_eq
  | ].

Lemma plain_exit_status (env : Env) (args : Plain.Args) :
  let r := Plain.script env args in
  (r.2 = 0 \/ r.2 = 1) /\
  (r.2 = 0 <-> exists what : Payload, written Stdout r.1 = [(what, true)]) /\
  (r.2 = 1 <-> written Stdout r.1 = []) /\
  (r.2 = 0 <-> reaches_wait r.1 = true) /\
  (r.2 = 1 <-> exists rest, written Stderr r.1 <> [] /\
                 last r.1 = Some (EvPrint Stderr rest false)).
Proof.
  cbv zeta. plain_cases env args; cbn;
    repeat split; intros; try discriminate; try lia; eauto;
    repeat match goal with
    | H : exists _, _ |- _ => destruct H
    | H : _ /\ _ |- _ => destruct H
    end; discriminate.
Qed.

Lemma tls_exit_status (env : Env) (args : TLS.Args) :
  let r := TLS.script env args in
  (r.2 = 0 \/ r.2 = 1) /\
  (r.2 = 0 <-> exists what : Payload, written Stdout r.1 = [(what, true)]) /\
  (r.2 = 1 <-> written Stdout r.1 = []) /\
  (r.2 = 0 <-> reaches_wait r.1 = true) /\
  (r.2 = 1 <-> exists rest, written Stderr r.1 <> [] /\
                 last r.1 = Some (EvPrint Stderr rest false)).
Proof.
  cbv zeta. tls_cases env args; cbn;
    repeat split; intros; try discriminate; try lia; eauto;
    repeat match goal with
    | H : exists _, _ |- _ => destruct H
    | H : _ /\ _ |- _ => destruct H
    end; discriminate.
Qed.

(** The exit status tells the whole story, for either script in any
    surroundings and for every parsed command line (what [parse_args]
    itself does on [--help] or a malformed option comes before and is not
    part of this): it is 0 or 1; it is 0 exactly
    when one flushed entry (the port line or the JSON object) was written
    to standard output, which is exactly when the process got as far as
    waiting for the shutdown event; it is 1 exactly when nothing was
    written to standard output, and then the last thing the process did
    was to write to standard error. *)
Theorem exit_status_tells_outcome :
  (forall (env : Env) (args : Plain.Args),
     let r := Plain.script env args in
     (r.2 = 0 \/ r.2 = 1) /\
     (r.2 = 0 <-> exists what : Payload, written Stdout r.1 = [(what, true)]) /\
     (r.2 = 1 <-> written Stdout r.1 = []) /\
     (r.2 = 0 <-> reaches_wait r.1 = true) /\
     (r.2 = 1 <-> exists rest, written Stderr r.1 <> [] /\
                    last r.1 = Some (EvPrint Stderr rest false))) /\
  (forall (env : Env) (args : TLS.Args),
     let r := TLS.script env args in
     (r.2 = 0 \/ r.2 = 1) /\
     (r.2 = 0 <-> exists what : Payload, written Stdout r.1 = [(what, true)]) /\
     (r.2 = 1 <-> written Stdout r.1 = []) /\
     (r.2 = 0 <-> reaches_wait r.1 = true) /\
     (r.2 = 1 <-> exists rest, written Stderr r.1 <> [] /\
                    last r.1 = Some (EvPrint Stderr rest false))).
Proof.
  split; [exact plain_exit_status | exact tls_exit_status].
Qed.

(** ** What [-v] changes *)

Lemma plain_verbose_only_stderr (env : Env) (args : Plain.Args) (v : bool) :
  let r1 := Plain.script env (plain_args_with args v (Plain.args_json args)) in
  let r0 := Plain.script env args in
  r1.2 = r0.2 /\
  without_stderr r1.1 = without_stderr r0.1 /\
  (Plain.args_json args = true -> r1 = r0).
Proof.
  cbv zeta. plain_cases env args; destruct v; cbn;
    repeat split; intros; try discriminate; reflexivity.
Qed.

Lemma tls_verbose_only_stderr (env : Env) (args : TLS.Args) (v : bool) :
  let r1 := TLS.script env (tls_args_with args v (TLS.args_json args)) in
  let r0 := TLS.script env args in
  r1.2 = r0.2 /\
  without_stderr r1.1 = without_stderr r0.1 /\
  (TLS.args_json args = true -> r1 = r0).
Proof.
  cbv zeta. tls_cases env args; destruct v; cbn;
    repeat split; intros; try discriminate; reflexivity.
Qed.

(** Giving or leaving out [-v] changes nothing but what goes to standard
    error: for either script, in any surroundings, the exit status and
    the trace without its standard-error entries (signal handlers, the
    bind, standard output, the wait, the shutdown) are the same; and in
    [--json] mode [-v] changes nothing at all. *)
Theorem verbose_changes_only_stderr :
  (forall (env : Env) (args : Plain.Args) (v : bool),
     let r1 :=
       Plain.script env (plain_args_with args v (Plain.args_json args)) in
     let r0 := Plain.script env args in
     r1.2 = r0.2 /\
     without_stderr r1.1 = without_stderr r0.1 /\
     (Plain.args_json args = true -> r1 = r0)) /\
  (forall (env : Env) (args : TLS.Args) (v : bool),
     let r1 := TLS.script env (tls_args_with args v (TLS.args_json args)) in
     let r0 := TLS.script env args in
     r1.2 = r0.2 /\
     without_stderr r1.1 = without_stderr r0.1 /\
     (TLS.args_json args = true -> r1 = r0)).
Proof.
  split; [exact plain_verbose_only_stderr | exact tls_verbose_only_stderr].
Qed.

(** The plaintext script in [--json] mode, with and without [-v]. *)
Lemma verbose_ignored_in_json_mode :
  Plain.script env_listening (plain_args_with plain_json_args true true)
    = Plain.script env_listening plain_json_args.
Proof.
  exact (proj2 (proj2 (proj1 verbose_changes_only_stderr
                         env_listening plain_json_args true)) eq_refl).
Defined.

Lemma plain_stderr_of_successful_run (env : Env) (args : Plain.Args)
    (t : Trace) (self' : Plain.ReferenceServer) (p : option Z) :
  pymodbus_installed env = true ->
  Plain.start env
    (Plain.__init__ (Plain.args_host args) (Plain.args_port args))
    = (t, self', Ok p) ->
  let tr := (Plain.script env args).1 in
  (Plain.args_verbose args = false \/ Plain.args_json args = true ->
   written Stderr tr = []) /\
  (Plain.args_verbose args = true -> Plain.args_json args = false ->
   exists (listening : string) (n : Z),
     p = Some n /\
     listening = "Server listening on " +:+ Plain.args_host args +:+ ":"
                 +:+ Py.str_int n /\
     written Stdout tr = [(PText ("MODBUS_PORT=" +:+ Py.str_int n), true)] /\
     written Stderr (before_wait tr) =
       [ (PText ("pymodbus version: " +:+ pymodbus_version env), false);
         (PText listening, false);
         (PText "Press Ctrl+C to stop", false) ] /\
     written Stderr tr =
       written Stderr (before_wait tr) ++ [(PText "Shutting down...", false)]).
Proof.
  intros Hinst0 Hstart. cbv zeta.
  plain_cases env args; try discriminate Hinst0;
    rewrite plain_start_eq in Hstart; cbv zeta in Hstart;
    cbn [Plain.__init__ Plain.host Plain.port Plain.actual_port Plain.server]
      in Hstart;
    rewrite Hserve in Hstart; try discriminate Hstart;
    injection Hstart as <- <- <-; cbn;
    (split; [intros [Hv | Hj]; try discriminate; reflexivity|]);
    intros Hv Hj; try discriminate.
  eexists _, _. repeat split.
Qed.

Lemma tls_stderr_of_successful_run (env : Env) (args : TLS.Args)
    (t : Trace) (self' : TLS.TLSReferenceServer) (p : option Z) :
  pymodbus_installed env = true ->
  TLS.start env (tls_server_of args) = (t, self', Ok p) ->
  let tr := (TLS.script env args).1 in
  (TLS.args_verbose args = false \/ TLS.args_json args = true ->
   written Stderr tr = []) /\
  (TLS.args_verbose args = true -> TLS.args_json args = false ->
   exists (listening : string) (n : Z),
     p = Some n /\
     listening = "TLS Server listening on " +:+ TLS.args_host args +:+ ":"
                 +:+ Py.str_int n /\
     written Stdout tr
       = [(PText ("MODBUS_TLS_PORT=" +:+ Py.str_int n), true)] /\
     written Stderr (before_wait tr) =
       [ (PText ("pymodbus version: " +:+ pymodbus_version env), false);
         (PText listening, false);
         (PText ("Certificate: " +:+ TLS.args_certfile args), false);
         (PText "Press Ctrl+C to stop", false) ] /\
     written Stderr tr =
       written Stderr (before_wait tr) ++ [(PText "Shutting down...", false)]).
Proof.
  intros Hinst0 Hstart. cbv zeta. unfold tls_server_of in Hstart.
  tls_cases env args; try discriminate Hinst0;
    rewrite tls_start_eq in Hstart; cbv zeta in Hstart;
    cbn [TLS.__init__ TLS.host TLS.port TLS.actual_port TLS.server]
      in Hstart;
    rewrite Hssl in Hstart; try rewrite Hserve in Hstart;
    try discriminate Hstart;
    injection Hstart as <- <- <-; cbn;
    (split; [intros [Hv | Hj]; try discriminate; reflexivity|]);
    intros Hv Hj; try discriminate.
  eexists _, _. repeat split.
Qed.

(** A run in which [start()] completes is silent on standard error unless
    [-v] is given in text mode.  With [-v] in text mode the lines on
    standard error before the wait are the version, the listening line
    with the same port as the port line on standard output, (for TLS the
    certificate path,) and the Ctrl+C hint; the only line after the wait
    is the shutdown notice. *)
Theorem stderr_of_successful_run :
  (forall (env : Env) (args : Plain.Args) (t : Trace)
          (self' : Plain.ReferenceServer) (p : option Z),
     pymodbus_installed env = true ->
     Plain.start env
       (Plain.__init__ (Plain.args_host args) (Plain.args_port args))
       = (t, self', Ok p) ->
     let tr := (Plain.script env args).1 in
     (Plain.args_verbose args = false \/ Plain.args_json args = true ->
      written Stderr tr = []) /\
     (Plain.args_verbose args = true -> Plain.args_json args = false ->
      exists (listening : string) (n : Z),
        p = Some n /\
        listening = "Server listening on " +:+ Plain.args_host args +:+ ":"
                    +:+ Py.str_int n /\
        written Stdout tr
          = [(PText ("MODBUS_PORT=" +:+ Py.str_int n), true)] /\
        written Stderr (before_wait tr) =
          [ (PText ("pymodbus version: " +:+ pymodbus_version env), false);
            (PText listening, false);
            (PText "Press Ctrl+C to stop", false) ] /\
        written Stderr tr =
          written Stderr (before_wait tr)
            ++ [(PText "Shutting down...", false)])) /\
  (forall (env : Env) (args : TLS.Args) (t : Trace)
          (self' : TLS.TLSReferenceServer) (p : option Z),
     pymodbus_installed env = true ->
     TLS.start env (tls_server_of args) = (t, self', Ok p) ->
     let tr := (TLS.script env args).1 in
     (TLS.args_verbose args = false \/ TLS.args_json args = true ->
      written Stderr tr = []) /\
     (TLS.args_verbose args = true -> TLS.args_json args = false ->
      exists (listening : string) (n : Z),
        p = Some n /\
        listening = "TLS Server listening on " +:+ TLS.args_host args +:+ ":"
                    +:+ Py.str_int n /\
        written Stdout tr
          = [(PText ("MODBUS_TLS_PORT=" +:+ Py.str_int n), true)] /\
        written Stderr (before_wait tr) =
          [ (PText ("pymodbus version: " +:+ pymodbus_version env), false);
            (PText listening, false);
            (PText ("Certificate: " +:+ TLS.args_certfile args), false);
            (PText "Press Ctrl+C to stop", false) ] /\
        written Stderr tr =
          written Stderr (before_wait tr)
            ++ [(PText "Shutting down...", false)])).
Proof.
  split.
  - intros env args t self' p. apply plain_stderr_of_successful_run.
  - intros env args t self' p. apply tls_stderr_of_successful_run.
Qed.

(** The TLS script with [-v --cafile certs/ca.crt] where the server
    listens on port 50123. *)
Lemma stderr_of_verbose_tls_run :
  written Stderr (before_wait (TLS.script env_listening tls_mtls_args).1) =
    [ (PText "pymodbus version: 3.11.0", false);
      (PText "TLS Server listening on 0.0.0.0:50123", false);
      (PText "Certificate: certs/server.crt", false);
      (PText "Press Ctrl+C to stop", false) ] /\
  written Stdout (TLS.script env_listening tls_mtls_args).1
    = [(PText "MODBUS_TLS_PORT=50123", true)].
Proof.
  destruct (proj2 (proj2 stderr_of_successful_run env_listening tls_mtls_args
                     [EvServeForever ("0.0.0.0", 802)]
                     (TLS.start env_listening (tls_server_of tls_mtls_args)).1.2
                     (Some 50123) eq_refl eq_refl) eq_refl eq_refl)
    as (listening & n & [= <-] & -> & Hout & Herr & _).
  split; [exact Herr | exact Hout].
Defined.

(** ** Signal handlers and the bind *)

Lemma plain_handlers_then_one_bind (env : Env) (args : Plain.Args) :
  let tr := (Plain.script env args).1 in
  handlers tr = (if pymodbus_installed env then [SIGTERM; SIGINT] else []) /\
  handlers (before_bind tr) = handlers tr /\
  written Stdout (before_bind tr) = [] /\
  binds tr =
    (if pymodbus_installed env
     then [(Plain.args_host args, Plain.args_port args)] else []).
Proof.
  cbv zeta.
  destruct (pymodbus_installed env) eqn:Hinst0;
    plain_cases env args; try discriminate Hinst0; cbn; repeat split.
Qed.

Lemma tls_handlers_then_one_bind (env : Env) (args : TLS.Args) :
  let tr := (TLS.script env args).1 in
  handlers tr = (if pymodbus_installed env then [SIGTERM; SIGINT] else []) /\
  handlers (before_bind tr) = handlers tr /\
  written Stdout (before_bind tr) = [] /\
  binds tr =
    (if pymodbus_installed env
     then match TLS._create_ssl_context env (tls_server_of args) with
          | Ok _ => [(TLS.args_host args, TLS.args_port args)]
          | Raise _ => []
          end
     else []).
Proof.
  cbv zeta.
  destruct (pymodbus_installed env) eqn:Hinst0;
    tls_cases env args; try discriminate Hinst0; cbn; repeat split.
Qed.

(** Either script, in any surroundings and mode: when pymodbus is there,
    handlers for SIGTERM and SIGINT, in this order and once each, are
    installed before the process first tries to serve, and nothing has
    been written to standard output by then; the process tries to serve
    at most once, on the configured (host, port) and nowhere else; the
    TLS script does so only if its SSL context could be created.  When
    pymodbus is absent there is neither handler nor bind. *)
Theorem handlers_then_one_bind :
  (forall (env : Env) (args : Plain.Args),
     let tr := (Plain.script env args).1 in
     handlers tr
       = (if pymodbus_installed env then [SIGTERM; SIGINT] else []) /\
     handlers (before_bind tr) = handlers tr /\
     written Stdout (before_bind tr) = [] /\
     binds tr =
       (if pymodbus_installed env
        then [(Plain.args_host args, Plain.args_port args)] else [])) /\
  (forall (env : Env) (args : TLS.Args),
     let tr := (TLS.script env args).1 in
     handlers tr
       = (if pymodbus_installed env then [SIGTERM; SIGINT] else []) /\
     handlers (before_bind tr) = handlers tr /\
     written Stdout (before_bind tr) = [] /\
     binds tr =
       (if pymodbus_installed env
        then match TLS._create_ssl_context env (tls_server_of args) with
             | Ok _ => [(TLS.args_host args, TLS.args_port args)]
             | Raise _ => []
             end
        else [])).
Proof.
  split; [exact plain_handlers_then_one_bind | exact tls_handlers_then_one_bind].
Qed.

(** ** Failures and cleanup *)

Lemma tls_no_context_no_bind (env : Env) (args : TLS.Args) (err : Exn) :
  pymodbus_installed env = true ->
  TLS._create_ssl_context env (tls_server_of args) = Raise err ->
  let r := TLS.script env args in
  r.2 = 1 /\
  binds r.1 = [] /\
  shutdowns r.1 = 0%nat /\
  written Stdout r.1 = [] /\
  last r.1 = Some (EvPrint Stderr (PTraceback err) false).
Proof.
  intros Hinst0 Hssl0. cbv zeta. unfold tls_server_of in Hssl0.
  tls_cases env args; try discriminate Hinst0;
    try discriminate Hssl0; injection Hssl0 as <-; cbn; repeat split.
Qed.

(** When the TLS server's SSL context cannot be created (certificate, key
    or supplied CA file that cannot be loaded), the TLS script never
    tries to serve and never calls [server.shutdown()]: it writes nothing
    to standard output, ends with the traceback of that very exception
    and exits with status 1, in text and in [--json] mode. *)
Theorem tls_never_serves_without_context
    (env : Env) (args : TLS.Args) (e : Exn) :
  pymodbus_installed env = true ->
  TLS._create_ssl_context env (tls_server_of args) = Raise e ->
  let r := TLS.script env args in
  r.2 = 1 /\
  binds r.1 = [] /\
  shutdowns r.1 = 0%nat /\
  written Stdout r.1 = [] /\
  last r.1 = Some (EvPrint Stderr (PTraceback e) false).
Proof. exact (tls_no_context_no_bind env args e). Qed.

(** The TLS script with [--cafile certs/ca.crt] where that file is
    absent. *)
Lemma missing_ca_file_is_fatal :
  (TLS.script env_no_ca tls_mtls_args).2 = 1 /\
  binds (TLS.script env_no_ca tls_mtls_args).1 = [] /\
  shutdowns (TLS.script env_no_ca tls_mtls_args).1 = 0%nat /\
  written Stdout (TLS.script env_no_ca tls_mtls_args).1 = [] /\
  last (TLS.script env_no_ca tls_mtls_args).1
    = Some (EvPrint Stderr (PTraceback (FileNotFoundError "certs/ca.crt"))
              false).
Proof.
  exact (tls_never_serves_without_context env_no_ca tls_mtls_args
           (FileNotFoundError "certs/ca.crt") eq_refl eq_refl).
Defined.

Lemma plain_bind_failure_cleanup (env : Env) (args : Plain.Args)
    (v : bool) (e : Exn) :
  pymodbus_installed env = true ->
  serve_forever env (Plain.args_host args, Plain.args_port args) = Raise e ->
  let text := Plain.script env (plain_args_with args v false) in
  let json := Plain.script env (plain_args_with args v true) in
  (shutdowns text.1 = 1%nat /\
   last text.1 = Some (EvPrint Stderr (PTraceback e) false) /\
   text.2 = 1) /\
  (shutdowns json.1 = 0%nat /\
   last json.1 = Some (EvPrint Stderr (PTraceback e) false) /\
   json.2 = 1).
Proof.
  intros Hinst Hserve. cbv zeta. unfold Plain.script.
  rewrite Hinst. cbn [negb plain_args_with Plain.args_json].
  unfold_coroutines.
  cbn [plain_args_with Plain.args_host Plain.args_port Plain.args_verbose].
  rewrite plain_start_eq. cbv zeta.
  cbn [Plain.__init__ Plain.host Plain.port]. rewrite Hserve.
  destruct v; rewrite plain_stop_eq; cbn; repeat split.
Qed.

Lemma tls_bind_failure_cleanup (env : Env) (args : TLS.Args)
    (v : bool) (sslctx : Ssl.SSLContext) (e : Exn) :
  pymodbus_installed env = true ->
  TLS._create_ssl_context env (tls_server_of args) = Ok sslctx ->
  serve_forever env (TLS.args_host args, TLS.args_port args) = Raise e ->
  let text := TLS.script env (tls_args_with args v false) in
  let json := TLS.script env (tls_args_with args v true) in
  (shutdowns text.1 = 1%nat /\
   last text.1 = Some (EvPrint Stderr (PTraceback e) false) /\
   text.2 = 1) /\
  (shutdowns json.1 = 0%nat /\
   last json.1 = Some (EvPrint Stderr (PTraceback e) false) /\
   json.2 = 1).
Proof.
  intros Hinst Hssl Hserve. cbv zeta. unfold TLS.script.
  unfold tls_server_of in Hssl.
  rewrite Hinst. cbn [negb tls_args_with TLS.args_json].
  unfold_coroutines.
  cbn [tls_args_with TLS.args_host TLS.args_port TLS.args_certfile
       TLS.args_keyfile TLS.args_cafile TLS.args_verbose].
  rewrite tls_start_eq. cbv zeta.
  cbn [TLS.__init__ TLS.host TLS.port]. rewrite Hssl, Hserve.
  destruct v; rewrite tls_stop_eq; cbn; repeat split.
Qed.

(** When [serve_forever] raises (the address cannot be bound), the text
    mode of either script still calls [server.shutdown()] once, from its
    [finally] block, before the traceback ends the process; the [--json]
    mode, which has no [finally], exits without calling it.  Both exit
    with status 1. *)
Theorem bind_failure_cleanup_differs_by_mode :
  (forall (env : Env) (args : Plain.Args) (v : bool) (e : Exn),
     pymodbus_installed env = true ->
     serve_forever env (Plain.args_host args, Plain.args_port args)
       = Raise e ->
     let text := Plain.script env (plain_args_with args v false) in
     let json := Plain.script env (plain_args_with args v true) in
     (shutdowns text.1 = 1%nat /\
      last text.1 = Some (EvPrint Stderr (PTraceback e) false) /\
      text.2 = 1) /\
     (shutdowns json.1 = 0%nat /\
      last json.1 = Some (EvPrint Stderr (PTraceback e) false) /\
      json.2 = 1)) /\
  (forall (env : Env) (args : TLS.Args) (v : bool)
          (sslctx : Ssl.SSLContext) (e : Exn),
     pymodbus_installed env = true ->
     TLS._create_ssl_context env (tls_server_of args) = Ok sslctx ->
     serve_forever env (TLS.args_host args, TLS.args_port args) = Raise e ->
     let text := TLS.script env (tls_args_with args v false) in
     let json := TLS.script env (tls_args_with args v true) in
     (shutdowns text.1 = 1%nat /\
      last text.1 = Some (EvPrint Stderr (PTraceback e) false) /\
      text.2 = 1) /\
     (shutdowns json.1 = 0%nat /\
      last json.1 = Some (EvPrint Stderr (PTraceback e) false) /\
      json.2 = 1)).
Proof.
  split.
  - intros env args v e. apply plain_bind_failure_cleanup.
  - intros env args v sslctx e. apply tls_bind_failure_cleanup.
Qed.

(** The plaintext script where the address cannot be bound, in both
    modes. *)
Lemma bind_failure_cleanup_observed :
  shutdowns (Plain.script env_port_in_use plain_default_args).1 = 1%nat /\
  shutdowns (Plain.script env_port_in_use plain_json_args).1 = 0%nat.
Proof.
  destruct (proj1 bind_failure_cleanup_differs_by_mode env_port_in_use
              plain_default_args false (OSError ("127.0.0.1", 0))
              eq_refl eq_refl)
    as ((Htext & _) & (Hjson & _)).
  split; [exact Htext | exact Hjson].
Defined.

(** ** The CA file and the SSL context *)

(** Whenever [_create_ssl_context] returns a context, the certificate and
    the key file were loaded; the context holds verify locations exactly
    when a CA file was supplied (a non-empty [cafile]), and then it is
    that file, which was loaded.  With no CA file supplied none is read:
    the same context is returned wherever the certificate and the key
    load, whatever else is on disk. *)
Theorem ssl_context_loads_ca_only_if_supplied
    (env : Env) (self : TLS.TLSReferenceServer) (ctx : Ssl.SSLContext) :
  TLS._create_ssl_context env self = Ok ctx ->
  (file_status env (TLS.certfile self) = Pem /\
   file_status env (TLS.keyfile self) = Pem) /\
  Ssl.verify_locations ctx =
    (if Py.truthy_opt_str (TLS.cafile self) then TLS.cafile self else None) /\
  (forall ca : string,
     Ssl.verify_locations ctx = Some ca ->
     TLS.cafile self = Some ca /\ ca <> EmptyString /\
     file_status env ca = Pem) /\
  (Py.truthy_opt_str (TLS.cafile self) = false ->
   forall env' : Env,
     file_status env' (TLS.certfile self) = Pem ->
     file_status env' (TLS.keyfile self) = Pem ->
     TLS._create_ssl_context env' self = Ok ctx).
Proof.
  unfold TLS._create_ssl_context.
  unfold mbind at 1; unfold Res_bind at 1.
  destruct (Ssl.load_cert_chain env _ _ _) as [c1|e] eqn:Hchain;
    [|discriminate].
  apply load_cert_chain_ok in Hchain as (Hcert & Hkey & ->).
  destruct (Py.truthy_opt_str (TLS.cafile self)) eqn:Htruthy.
  - unfold mbind, Res_bind.
    destruct (Ssl.load_verify_locations env _ _) as [c2|e] eqn:Hverify;
      [|discriminate].
    apply load_verify_locations_ok in Hverify as (path & Hsome & Hpem & ->).
    intros [= <-]. cbn.
    split; [auto|]. split; [symmetry; exact Hsome|].
    split; [|discriminate].
    intros ca [= <-]. split; [exact Hsome|]. split; [|exact Hpem].
    apply truthy_opt_str_supplied in Htruthy as (ca & Hca & Hne).
    congruence.
  - intros [= <-]. cbn.
    split; [auto|]. split; [reflexivity|].
    split; [intros ca Hca; discriminate Hca|].
    intros _ env' Hcert' Hkey'.
    unfold Ssl.load_cert_chain, Ssl.read_pem. rewrite Hcert', Hkey'.
    reflexivity.
Qed.

(** The TLS server with its default arguments (no CA file): the context
    has no verify locations, and it is the same context where the CA
    file [certs/ca.crt] is absent. *)
Lemma ssl_context_without_cafile :
  exists ctx : Ssl.SSLContext,
    TLS._create_ssl_context env_listening (tls_server_of tls_default_args)
      = Ok ctx /\
    Ssl.verify_locations ctx = None /\
    TLS._create_ssl_context env_no_ca (tls_server_of tls_default_args)
      = Ok ctx.
Proof.
  eexists. split; [reflexivity|].
  destruct (ssl_context_loads_ca_only_if_supplied env_listening
              (tls_server_of tls_default_args) _ eq_refl)
    as (_ & Hloc & _ & Hsame).
  split; [exact Hloc|].
  exact (Hsame eq_refl env_no_ca eq_refl eq_refl).
Defined.

(** ** The server object over its life *)

Lemma plain_object_invariants (host : string) (port : Z)
    (self : Plain.ReferenceServer) :
  Plain.reachable host port self ->
  Plain.host self = host /\
  Plain.port self = port /\
  (forall srv : ModbusTcpServer,
     Plain.server self = Some srv ->
     tcp_address srv = (host, port) /\
     (is_Some (tcp_transport srv) -> is_Some (Plain.actual_port self))).
Proof.
  induction 1 as [|self self' Hreach (IHhost & IHport & IHsrv) Hstep].
  - split; [reflexivity|]. split; [reflexivity|].
    intros srv Hsrv. discriminate Hsrv.
  - destruct Hstep as [env self | self].
    + rewrite plain_start_eq. cbv zeta.
      destruct (serve_forever env _) as [tr|e]; cbn;
        (split; [exact IHhost|]); (split; [exact IHport|]);
        intros srv [= <-]; cbn; rewrite IHhost, IHport;
        split; try reflexivity.
      * intros _. eexists. reflexivity.
      * intros [x Hx]. discriminate Hx.
    + rewrite plain_stop_eq.
      destruct (Plain.server self) as [srv0|] eqn:Hsrv0; cbn.
      * split; [exact IHhost|]. split; [exact IHport|].
        intros srv Hsrv. discriminate Hsrv.
      * split; [exact IHhost|]. split; [exact IHport|].
        rewrite Hsrv0. intros srv Hsrv. discriminate Hsrv.
Qed.

Lemma tls_object_invariants (host : string) (port : Z)
    (certfile keyfile : string) (cafile : option string)
    (self : TLS.TLSReferenceServer) :
  TLS.reachable host port certfile keyfile cafile self ->
  (TLS.host self = host /\ TLS.port self = port /\
   TLS.certfile self = certfile /\ TLS.keyfile self = keyfile /\
   TLS.cafile self = cafile) /\
  (forall srv : ModbusTlsServer,
     TLS.server self = Some srv ->
     tls_address srv = (host, port) /\
     (is_Some (tls_transport srv) -> is_Some (TLS.actual_port self)) /\
     Ssl.minimum_version (tls_sslctx srv) = Ssl.TLSv1_2 /\
     Ssl.cert_chain (tls_sslctx srv) = Some (certfile, keyfile) /\
     Ssl.verify_mode (tls_sslctx srv) =
       if Py.truthy_opt_str cafile
       then Ssl.CERT_OPTIONAL else Ssl.CERT_NONE).
Proof.
  induction 1 as [|self self' Hreach (IHconf & IHsrv) Hstep].
  - split; [repeat split|]. intros srv Hsrv. discriminate Hsrv.
  - destruct IHconf as (IHhost & IHport & IHcert & IHkey & IHca).
    destruct Hstep as [env self | self].
    + rewrite tls_start_eq. cbv zeta.
      destruct (TLS._create_ssl_context env self) as [sslctx|e1] eqn:Hssl;
        [|cbn; split; [repeat split; assumption | exact IHsrv]].
      destruct (ssl_context_fields env self sslctx Hssl)
        as (Hmin & Hchain & Hmode).
      rewrite IHcert, IHkey in Hchain. rewrite IHca in Hmode.
      destruct (serve_forever env _) as [tr|e]; cbn;
        (split; [auto|]); intros srv [= <-]; cbn; rewrite IHhost, IHport;
        (split; [reflexivity|]); (split; [|auto]).
      * intros _. eexists. reflexivity.
      * intros [x Hx]. discriminate Hx.
    + rewrite tls_stop_eq.
      destruct (TLS.server self) as [srv0|] eqn:Hsrv0; cbn.
      * split; [auto|]. intros srv Hsrv. discriminate Hsrv.
      * split; [auto|]. rewrite Hsrv0. intros srv Hsrv. discriminate Hsrv.
Qed.

(** Through any sequence of [start()] and [stop()] calls, in whatever
    surroundings and whether they return or raise, a server object keeps
    the configuration it was constructed with (host and port; for TLS
    also certificate, key and CA file); the server it holds is always the
    one for that (host, port); if that server has a transport, a port is
    stored in [actual_port]; and a TLS server it holds always has an SSL
    context with minimum version TLS 1.2, the configured certificate
    chain, and client verification optional or off as the CA file was
    supplied or not. *)
Theorem server_object_invariants :
  (forall (host : string) (port : Z) (self : Plain.ReferenceServer),
     Plain.reachable host port self ->
     Plain.host self = host /\
     Plain.port self = port /\
     (forall srv : ModbusTcpServer,
        Plain.server self = Some srv ->
        tcp_address srv = (host, port) /\
        (is_Some (tcp_transport srv) -> is_Some (Plain.actual_port self)))) /\
  (forall (host : string) (port : Z) (certfile keyfile : string)
          (cafile : option string) (self : TLS.TLSReferenceServer),
     TLS.reachable host port certfile keyfile cafile self ->
     (TLS.host self = host /\ TLS.port self = port /\
      TLS.certfile self = certfile /\ TLS.keyfile self = keyfile /\
      TLS.cafile self = cafile) /\
     (forall srv : ModbusTlsServer,
        TLS.server self = Some srv ->
        tls_address srv = (host, port) /\
        (is_Some (tls_transport srv) -> is_Some (TLS.actual_port self)) /\
        Ssl.minimum_version (tls_sslctx srv) = Ssl.TLSv1_2 /\
        Ssl.cert_chain (tls_sslctx srv) = Some (certfile, keyfile) /\
        Ssl.verify_mode (tls_sslctx srv) =
          if Py.truthy_opt_str cafile
          then Ssl.CERT_OPTIONAL else Ssl.CERT_NONE)).
Proof.
  split; [exact plain_object_invariants | exact tls_object_invariants].
Qed.

(** A TLS server object after a [start()] that fails on the certificates,
    a [stop()], and a [start()] where everything is in place: it holds a
    server whose context asks for TLS 1.2. *)
Lemma tls_object_after_failed_then_good_start :
  let s0 := tls_server_of tls_default_args in
  let s1 := (TLS.start env_no_certs s0).1.2 in
  let s2 := (TLS.stop s1).1.2 in
  let s3 := (TLS.start env_listening s2).1.2 in
  TLS.server s1 = None /\
  exists srv : ModbusTlsServer,
    TLS.server s3 = Some srv /\
    tls_address srv = ("0.0.0.0", 802) /\
    Ssl.minimum_version (tls_sslctx srv) = Ssl.TLSv1_2.
Proof.
  cbv zeta.
  pose (s0 := tls_server_of tls_default_args).
  pose (s1 := (TLS.start env_no_certs s0).1.2).
  pose (s2 := (TLS.stop s1).1.2).
  pose (s3 := (TLS.start env_listening s2).1.2).
  assert (TLS.reachable "0.0.0.0" 802 "certs/server.crt" "certs/server.key"
            None s3) as Hreach.
  { apply (TLS.reach_step _ _ _ _ _ s2); [|apply TLS.step_start].
    apply (TLS.reach_step _ _ _ _ _ s1); [|apply TLS.step_stop].
    apply (TLS.reach_step _ _ _ _ _ s0); [|apply TLS.step_start].
    apply TLS.reach_init. }
  split; [reflexivity|].
  eexists. split; [reflexivity|].
  destruct (proj2 (proj2 server_object_invariants _ _ _ _ _ s3 Hreach)
              _ eq_refl) as (Haddr & _ & Hmin & _).
  split; [exact Haddr | exact Hmin].
Defined.

(** ** Starting a server object again *)

Lemma ssl_context_reads_only_its_files (env : Env)
    (self self' : TLS.TLSReferenceServer) :
  TLS.certfile self' = TLS.certfile self ->
  TLS.keyfile self' = TLS.keyfile self ->
  TLS.cafile self' = TLS.cafile self ->
  TLS._create_ssl_context env self' = TLS._create_ssl_context env self.
Proof.
  intros Hcert Hkey Hca. unfold TLS._create_ssl_context.
  rewrite Hcert, Hkey, Hca. reflexivity.
Qed.

Lemma plain_restart (env1 env2 : Env) (host : string) (port p1 : Z)
    (tr2 : option Transport) :
  (Plain.start env1 (Plain.__init__ host port)).2 = Ok (Some p1) ->
  serve_forever env2 (host, port) = Ok tr2 ->
  let s1 := (Plain.start env1 (Plain.__init__ host port)).1.2 in
  let s2 := (Plain.stop s1).1.2 in
  Plain.server s2 = None /\
  Plain.actual_port s2 = Some p1 /\
  (Plain.start env2 s2).2 = Ok (Some (default p1 (first_socket_port tr2))).
Proof.
  intros Hstart1 Hserve2. cbv zeta.
  rewrite plain_start_eq in Hstart1 |- *. cbv zeta in Hstart1 |- *.
  cbn [Plain.__init__ Plain.host Plain.port Plain.actual_port] in Hstart1 |- *.
  destruct (serve_forever env1 (host, port)) as [tr1|e1];
    [|discriminate Hstart1].
  cbn in Hstart1. injection Hstart1 as Hp1.
  rewrite plain_stop_eq. cbn. rewrite Hp1.
  split; [reflexivity|]. split; [reflexivity|].
  rewrite plain_start_eq. cbn. rewrite Hserve2. cbn.
  destruct (first_socket_port tr2); reflexivity.
Qed.

Lemma tls_restart (env1 env2 : Env) (args : TLS.Args) (p1 : Z)
    (sslctx2 : Ssl.SSLContext) (tr2 : option Transport) :
  (TLS.start env1 (tls_server_of args)).2 = Ok (Some p1) ->
  TLS._create_ssl_context env2 (tls_server_of args) = Ok sslctx2 ->
  serve_forever env2 (TLS.args_host args, TLS.args_port args) = Ok tr2 ->
  let s1 := (TLS.start env1 (tls_server_of args)).1.2 in
  let s2 := (TLS.stop s1).1.2 in
  TLS.server s2 = None /\
  TLS.actual_port s2 = Some p1 /\
  (TLS.start env2 s2).2 = Ok (Some (default p1 (first_socket_port tr2))).
Proof.
  intros Hstart1 Hssl2 Hserve2. cbv zeta.
  rewrite tls_start_eq in Hstart1 |- *. cbv zeta in Hstart1 |- *.
  destruct (TLS._create_ssl_context env1 (tls_server_of args)) as [sslctx1|e0];
    [|discriminate Hstart1].
  unfold tls_server_of in Hstart1, Hssl2 |- *.
  cbn [TLS.__init__ TLS.host TLS.port TLS.actual_port TLS.certfile
       TLS.keyfile TLS.cafile] in Hstart1 |- *.
  destruct (serve_forever env1 _) as [tr1|e1]; [|discriminate Hstart1].
  cbn in Hstart1. injection Hstart1 as Hp1.
  rewrite tls_stop_eq. cbn. rewrite Hp1.
  split; [reflexivity|]. split; [reflexivity|].
  rewrite tls_start_eq. cbv zeta.
  erewrite ssl_context_reads_only_its_files;
    [rewrite Hssl2 | reflexivity | reflexivity | reflexivity].
  cbn. rewrite Hserve2. cbn.
  destruct (first_socket_port tr2); reflexivity.
Qed.

(** [stop()] clears the server but keeps the port a completed [start()]
    stored; a later [start()] on the same object that completes returns
    the port of the first socket it now finds, and if it finds none it
    returns the port of the earlier start, whatever the requested port
    is. *)
Theorem restart_returns_new_or_earlier_port :
  (forall (env1 env2 : Env) (host : string) (port p1 : Z)
          (tr2 : option Transport),
     (Plain.start env1 (Plain.__init__ host port)).2 = Ok (Some p1) ->
     serve_forever env2 (host, port) = Ok tr2 ->
     let s1 := (Plain.start env1 (Plain.__init__ host port)).1.2 in
     let s2 := (Plain.stop s1).1.2 in
     Plain.server s2 = None /\
     Plain.actual_port s2 = Some p1 /\
     (Plain.start env2 s2).2
       = Ok (Some (default p1 (first_socket_port tr2)))) /\
  (forall (env1 env2 : Env) (args : TLS.Args) (p1 : Z)
          (sslctx2 : Ssl.SSLContext) (tr2 : option Transport),
     (TLS.start env1 (tls_server_of args)).2 = Ok (Some p1) ->
     TLS._create_ssl_context env2 (tls_server_of args) = Ok sslctx2 ->
     serve_forever env2 (TLS.args_host args, TLS.args_port args) = Ok tr2 ->
     let s1 := (TLS.start env1 (tls_server_of args)).1.2 in
     let s2 := (TLS.stop s1).1.2 in
     TLS.server s2 = None /\
     TLS.actual_port s2 = Some p1 /\
     (TLS.start env2 s2).2
       = Ok (Some (default p1 (first_socket_port tr2)))).
Proof.
  split.
  - intros env1 env2 host port p1 tr2. apply plain_restart.
  - intros env1 env2 args p1 sslctx2 tr2. apply tls_restart.
Qed.

(** A plaintext server asked for port 0, started where it listens on
    50123, stopped, and started again where no socket shows: the second
    start returns 50123, not 0. *)
Lemma restart_without_sockets_returns_50123 :
  let s1 := (Plain.start env_listening (Plain.__init__ "127.0.0.1" 0)).1.2 in
  let s2 := (Plain.stop s1).1.2 in
  (Plain.start env_no_sockets s2).2 = Ok (Some 50123).
Proof.
  exact (proj2 (proj2 (proj1 restart_returns_new_or_earlier_port
                         env_listening env_no_sockets "127.0.0.1" 0 50123
                         (Some (TransportSockets [])) eq_refl eq_refl))).
Defined.

(** ** Text mode and JSON mode agree *)

Lemma plain_modes_agree (env : Env) (args : Plain.Args)
    (t : Trace) (self' : Plain.ReferenceServer) (p : option Z) :
  pymodbus_installed env = true ->
  Plain.start env
    (Plain.__init__ (Plain.args_host args) (Plain.args_port args))
    = (t, self', Ok p) ->
  let v := Plain.args_verbose args in
  exists (n : Z) (obj : list (string * JValue)),
    p = Some n /\
    written Stdout (Plain.script env (plain_args_with args v false)).1
      = [(PText ("MODBUS_PORT=" +:+ Py.str_int n), true)] /\
    written Stdout (Plain.script env (plain_args_with args v true)).1
      = [(PJson obj, true)] /\
    fst <$> obj = ["host"; "port"; "pymodbus_version"; "status"] /\
    json_get obj "port" = Some (JInt n) /\
    json_get obj "pymodbus_version" = Some (JStr (pymodbus_version env)).
Proof.
  intros Hinst Hstart. cbv zeta.
  unfold Plain.script. rewrite Hinst.
  cbn [negb plain_args_with Plain.args_json].
  unfold_coroutines.
  cbn [plain_args_with Plain.args_host Plain.args_port Plain.args_verbose].
  rewrite Hstart. invert_plain_start Hstart.
  rewrite plain_stop_eq.
  destruct (Plain.args_verbose args); eexists _, _; cbn; repeat split.
Qed.

Lemma tls_modes_agree (env : Env) (args : TLS.Args)
    (t : Trace) (self' : TLS.TLSReferenceServer) (p : option Z) :
  pymodbus_installed env = true ->
  TLS.start env (tls_server_of args) = (t, self', Ok p) ->
  let v := TLS.args_verbose args in
  exists (n : Z) (obj : list (string * JValue)),
    p = Some n /\
    written Stdout (TLS.script env (tls_args_with args v false)).1
      = [(PText ("MODBUS_TLS_PORT=" +:+ Py.str_int n), true)] /\
    written Stdout (TLS.script env (tls_args_with args v true)).1
      = [(PJson obj, true)] /\
    fst <$> obj
      = ["host"; "port"; "tls"; "certfile"; "pymodbus_version"; "status"] /\
    json_get obj "port" = Some (JInt n) /\
    json_get obj "tls" = Some (JBool true) /\
    json_get obj "certfile" = Some (JStr (TLS.args_certfile args)) /\
    json_get obj "pymodbus_version" = Some (JStr (pymodbus_version env)).
Proof.
  intros Hinst Hstart. cbv zeta. unfold tls_server_of in Hstart.
  unfold TLS.script. rewrite Hinst.
  cbn [negb tls_args_with TLS.args_json].
  unfold_coroutines.
  cbn [tls_args_with TLS.args_host TLS.args_port TLS.args_certfile
       TLS.args_keyfile TLS.args_cafile TLS.args_verbose].
  rewrite Hstart. invert_tls_start Hstart.
  rewrite tls_stop_eq.
  destruct (TLS.args_verbose args); eexists _, _; cbn; repeat split.
Qed.

(** For the same surroundings and command line, the port on the text
    mode's port line and the ["port"] of the [--json] mode's object are
    the same integer (never [null]).  The object's keys are, in order,
    host, port, pymodbus_version, status; the TLS script adds ["tls"],
    which is [true], and ["certfile"], the configured certificate path,
    after port. *)
Theorem text_and_json_modes_agree :
  (forall (env : Env) (args : Plain.Args) (t : Trace)
          (self' : Plain.ReferenceServer) (p : option Z),
     pymodbus_installed env = true ->
     Plain.start env
       (Plain.__init__ (Plain.args_host args) (Plain.args_port args))
       = (t, self', Ok p) ->
     let v := Plain.args_verbose args in
     exists (n : Z) (obj : list (string * JValue)),
       p = Some n /\
       written Stdout (Plain.script env (plain_args_with args v false)).1
         = [(PText ("MODBUS_PORT=" +:+ Py.str_int n), true)] /\
       written Stdout (Plain.script env (plain_args_with args v true)).1
         = [(PJson obj, true)] /\
       fst <$> obj = ["host"; "port"; "pymodbus_version"; "status"] /\
       json_get obj "port" = Some (JInt n) /\
       json_get obj "pymodbus_version"
         = Some (JStr (pymodbus_version env))) /\
  (forall (env : Env) (args : TLS.Args) (t : Trace)
          (self' : TLS.TLSReferenceServer) (p : option Z),
     pymodbus_installed env = true ->
     TLS.start env (tls_server_of args) = (t, self', Ok p) ->
     let v := TLS.args_verbose args in
     exists (n : Z) (obj : list (string * JValue)),
       p = Some n /\
       written Stdout (TLS.script env (tls_args_with args v false)).1
         = [(PText ("MODBUS_TLS_PORT=" +:+ Py.str_int n), true)] /\
       written Stdout (TLS.script env (tls_args_with args v true)).1
         = [(PJson obj, true)] /\
       fst <$> obj
         = ["host"; "port"; "tls"; "certfile"; "pymodbus_version"; "status"] /\
       json_get obj "port" = Some (JInt n) /\
       json_get obj "tls" = Some (JBool true) /\
       json_get obj "certfile" = Some (JStr (TLS.args_certfile args)) /\
       json_get obj "pymodbus_version"
         = Some (JStr (pymodbus_version env))).
Proof.
  split.
  - intros env args t self' p. apply plain_modes_agree.
  - intros env args t self' p. apply tls_modes_agree.
Qed.

(** The TLS script with its default arguments where the server listens on
    port 50123, in both modes. *)
Lemma tls_modes_agree_on_50123 :
  exists obj : list (string * JValue),
    written Stdout (TLS.script env_listening tls_default_args).1
      = [(PText "MODBUS_TLS_PORT=50123", true)] /\
    written Stdout (TLS.script env_listening tls_json_args).1
      = [(PJson obj, true)] /\
    json_get obj "port" = Some (JInt 50123) /\
    json_get obj "certfile" = Some (JStr "certs/server.crt").
Proof.
  destruct (proj2 text_and_json_modes_agree env_listening tls_default_args
              [EvServeForever ("0.0.0.0", 802)]
              (TLS.start env_listening (tls_server_of tls_default_args)).1.2
              (Some 50123) eq_refl eq_refl)
    as (n & obj & [= <-] & Htext & Hjson & _ & Hport & _ & Hcert & _).
  exists obj. repeat split; assumption.
Defined.

(** The import block with the names of pymodbus 3.6: the old names are
    taken and the guard lets the script run on. *)
Lemma import_block_on_old_names :
  Imports.import_block "ModbusTcpServer" pymodbus_3_6
    = Ok {| Imports.device_context_class := "ModbusSlaveContext";
            Imports.identification_module := "pymodbus.device" |} /\
  (Imports.guarded_imports "ModbusTcpServer" pymodbus_3_6).2 = None.
Proof.
  exact (import_block_accepts_old_and_new_names "ModbusTcpServer" pymodbus_3_6).
Defined.

(** The same with the names of pymodbus 3.11. *)
Example import_block_on_new_names :
  Imports.import_block "ModbusTlsServer" pymodbus_3_11
    = Ok {| Imports.device_context_class := "ModbusDeviceContext";
            Imports.identification_module := "pymodbus" |}.
Proof. reflexivity. Qed.

(** ** The port printed for [--port 0] *)

Lemma plain_ephemeral_port (env : Env) (args : Plain.Args)
    (t : Trace) (self' : Plain.ReferenceServer) (p : option Z) :
  pymodbus_installed env = true ->
  Plain.args_port args = 0 ->
  Plain.start env
    (Plain.__init__ (Plain.args_host args) (Plain.args_port args))
    = (t, self', Ok p) ->
  let tr := (Plain.script env args).1 in
  let shown := first_socket_port (Plain.server_transport self') in
  exists n : Z,
    p = Some n /\
    n = default 0 shown /\
    (if Plain.args_json args
     then exists obj : list (string * JValue),
            written Stdout tr = [(PJson obj, true)] /\
            json_get obj "port" = Some (JInt n)
     else written Stdout tr
            = [(PText ("MODBUS_PORT=" +:+ Py.str_int n), true)]) /\
    (1 <= n <= 65535 <-> exists q : Z, shown = Some q /\ 1 <= q <= 65535).
Proof.
  intros Hinst Hport Hstart. cbv zeta.
  assert (exists n : Z,
            p = Some n /\
            n = default 0
                  (first_socket_port (Plain.server_transport self')))
    as (n & -> & Hn).
  { revert Hstart. rewrite plain_start_eq. cbv zeta.
    destruct (serve_forever env _) as [tr|e]; [|discriminate].
    intros [= <- <- <-]. unfold Plain.server_transport.
    cbn [Plain.server tcp_transport Plain.__init__ Plain.actual_port
         Plain.port].
    rewrite Hport. eexists. split; [reflexivity|].
    destruct (first_socket_port tr); reflexivity. }
  exists n. split; [reflexivity|]. split; [exact Hn|]. split.
  - destruct (Plain.args_json args) eqn:Hjson.
    + destruct (plain_script_json env args t self' (Some n) Hinst Hjson Hstart)
        as (obj & Hout & _ & Hp & _).
      exists obj. split; [exact Hout | exact Hp].
    + exact (proj1 (plain_script_port_line env args t self' (Some n)
                      Hinst Hjson Hstart)).
  - rewrite Hn.
    destruct (first_socket_port (Plain.server_transport self')) as [q|]; cbn.
    + split; [eauto|]. intros (q' & [= <-] & Hq). exact Hq.
    + split; [lia|]. intros (q & Hq & _). discriminate Hq.
Qed.

Lemma tls_ephemeral_port (env : Env) (args : TLS.Args)
    (t : Trace) (self' : TLS.TLSReferenceServer) (p : option Z) :
  pymodbus_installed env = true ->
  TLS.args_port args = 0 ->
  TLS.start env
    (TLS.__init__ (TLS.args_host args) (TLS.args_port args)
       (TLS.args_certfile args) (TLS.args_keyfile args) (TLS.args_cafile args))
    = (t, self', Ok p) ->
  let tr := (TLS.script env args).1 in
  let shown := first_socket_port (TLS.server_transport self') in
  exists n : Z,
    p = Some n /\
    n = default 0 shown /\
    (if TLS.args_json args
     then exists obj : list (string * JValue),
            written Stdout tr = [(PJson obj, true)] /\
            json_get obj "port" = Some (JInt n)
     else written Stdout tr
            = [(PText ("MODBUS_TLS_PORT=" +:+ Py.str_int n), true)]) /\
    (1 <= n <= 65535 <-> exists q : Z, shown = Some q /\ 1 <= q <= 65535).
Proof.
  intros Hinst Hport Hstart. cbv zeta.
  assert (exists n : Z,
            p = Some n /\
            n = default 0
                  (first_socket_port (TLS.server_transport self')))
    as (n & -> & Hn).
  { revert Hstart. rewrite tls_start_eq. cbv zeta.
    destruct (TLS._create_ssl_context env _) as [sslctx|e0]; [|discriminate].
    destruct (serve_forever env _) as [tr|e]; [|discriminate].
    intros [= <- <- <-]. unfold TLS.server_transport.
    cbn [TLS.server tls_transport TLS.__init__ TLS.actual_port TLS.port].
    rewrite Hport. eexists. split; [reflexivity|].
    destruct (first_socket_port tr); reflexivity. }
  exists n. split; [reflexivity|]. split; [exact Hn|]. split.
  - destruct (TLS.args_json args) eqn:Hjson.
    + destruct (tls_script_json env args t self' (Some n) Hinst Hjson Hstart)
        as (obj & Hout & _ & Hp & _).
      exists obj. split; [exact Hout | exact Hp].
    + exact (proj1 (tls_script_port_line env args t self' (Some n)
                      Hinst Hjson Hstart)).
  - rewrite Hn.
    destruct (first_socket_port (TLS.server_transport self')) as [q|]; cbn.
    + split; [eauto|]. intros (q' & [= <-] & Hq). exact Hq.
    + split; [lia|]. intros (q & Hq & _). discriminate Hq.
Qed.

(** C3, as the code has it: in a run with [--port 0] in which [start()]
    completes, in text or in [--json] mode, the port printed on standard
    output (on the port line, or as ["port"] of the JSON object) is the
    bound port of the first listening socket the transport shows, and the
    requested port 0 when the transport shows no socket; so it lies in
    [1, 65535] exactly when the transport shows a first socket bound to a
    port of that range.  Both servers. *)
Theorem ephemeral_port_line :
  (forall (env : Env) (args : Plain.Args) (t : Trace)
          (self' : Plain.ReferenceServer) (p : option Z),
     pymodbus_installed env = true ->
     Plain.args_port args = 0 ->
     Plain.start env
       (Plain.__init__ (Plain.args_host args) (Plain.args_port args))
       = (t, self', Ok p) ->
     let tr := (Plain.script env args).1 in
     let shown := first_socket_port (Plain.server_transport self') in
     exists n : Z,
       p = Some n /\
       n = default 0 shown /\
       (if Plain.args_json args
        then exists obj : list (string * JValue),
               written Stdout tr = [(PJson obj, true)] /\
               json_get obj "port" = Some (JInt n)
        else written Stdout tr
               = [(PText ("MODBUS_PORT=" +:+ Py.str_int n), true)]) /\
       (1 <= n <= 65535 <->
        exists q : Z, shown = Some q /\ 1 <= q <= 65535)) /\
  (forall (env : Env) (args : TLS.Args) (t : Trace)
          (self' : TLS.TLSReferenceServer) (p : option Z),
     pymodbus_installed env = true ->
     TLS.args_port args = 0 ->
     TLS.start env
       (TLS.__init__ (TLS.args_host args) (TLS.args_port args)
          (TLS.args_certfile args) (TLS.args_keyfile args)
          (TLS.args_cafile args))
       = (t, self', Ok p) ->
     let tr := (TLS.script env args).1 in
     let shown := first_socket_port (TLS.server_transport self') in
     exists n : Z,
       p = Some n /\
       n = default 0 shown /\
       (if TLS.args_json args
        then exists obj : list (string * JValue),
               written Stdout tr = [(PJson obj, true)] /\
               json_get obj "port" = Some (JInt n)
        else written Stdout tr
               = [(PText ("MODBUS_TLS_PORT=" +:+ Py.str_int n), true)]) /\
       (1 <= n <= 65535 <->
        exists q : Z, shown = Some q /\ 1 <= q <= 65535)).
Proof.
  split.
  - intros env args t self' p. apply plain_ephemeral_port.
  - intros env args t self' p. apply tls_ephemeral_port.
Qed.

(** The plaintext script with [--port 0] where the server listens on one
    socket bound to port 50123: that is the port on the line, and it is
    in range. *)
Lemma ephemeral_port_line_50123 :
  written Stdout (Plain.script env_listening plain_default_args).1
    = [(PText "MODBUS_PORT=50123", true)] /\
  1 <= 50123 <= 65535.
Proof.
  destruct (proj1 ephemeral_port_line env_listening plain_default_args
              [EvServeForever ("127.0.0.1", 0)]
              (Plain.start env_listening (Plain.__init__ "127.0.0.1" 0)).1.2
              (Some 50123) eq_refl eq_refl eq_refl)
    as (n & [= <-] & _ & Hout & Hrange).
  split; [exact Hout|].
  apply Hrange. exists 50123. split; [reflexivity | lia].
Defined.

(** The plaintext script with [--port 0] where [start()] completes but the
    transport shows no socket: the line on standard output carries port 0,
    and so does the object in [--json] mode; 0 is outside [1, 65535]. *)
Lemma port_zero_printed_without_sockets :
  Plain.args_port plain_default_args = 0 /\
  Plain.start env_no_sockets (Plain.__init__ "127.0.0.1" 0)
    = ([EvServeForever ("127.0.0.1", 0)],
       (Plain.start env_no_sockets (Plain.__init__ "127.0.0.1" 0)).1.2,
       Ok (Some 0)) /\
  written Stdout (Plain.script env_no_sockets plain_default_args).1
    = [(PText "MODBUS_PORT=0", true)] /\
  (exists obj : list (string * JValue),
     written Stdout (Plain.script env_no_sockets plain_json_args).1
       = [(PJson obj, true)] /\
     json_get obj "port" = Some (JInt 0)) /\
  ~ (1 <= 0 <= 65535).
Proof.
  split; [reflexivity|]. split; [reflexivity|]. split; [reflexivity|].
  split; [eexists; split; reflexivity | lia].
Qed.
